(** * Backbone Router manager (src/core/backbone_router/bbr_manager.cpp)

    A shallow embedding of [ot::BackboneRouter::Manager]: the notifier
    handler, the Multicast Listener Registration (MLR) handler, the Domain
    Unicast Address (DUA) registration handler and the backbone
    forward-decision query, followed by the properties of the registration
    protocol that are stated about them.

    Conventions.
    - C++ unsigned integers are [Z] with the wrap-around written out.
    - The manager's fields and the collaborators it mutates are threaded
      explicitly; what a handler hands to a transport is returned as a list
      of transmissions, in program order.
    - Undefined behaviour and failed assertions are results of their own
      ([Fail]), so that safety of a run is a statement about its result.
    - Classes whose implementation is not part of this translation unit
      (the two tables, the address resolver, the backbone agent, constants
      of other headers) are the fields of the class [Collaborators]. *)

From Stdlib Require Import ZArith Lia Bool List Strings.Byte.
From stdpp Require Import base list.

Local Open Scope Z_scope.

(** ** Machine integers *)

Definition UINT32_MAX : Z := 4294967295.

Definition uint8 (z : Z) : Z := z mod 256.
Definition uint16 (z : Z) : Z := z mod 65536.
Definition uint32 (z : Z) : Z := z mod 4294967296.

Definition OT_MIN (a b : Z) : Z := if a <? b then a else b.
Definition OT_MAX (a b : Z) : Z := if a <? b then b else a.

(** ** Core types *)

#[global] Instance byte_eq_decision : EqDecision byte := byte_eq_dec.

(** [Ip6::Address]: 16 bytes, in network order. *)
Definition Address : Type := list byte.
(** [Ip6::InterfaceIdentifier]: 8 bytes. *)
Definition InterfaceIdentifier : Type := list byte.
(** [Mac::ShortAddress] *)
Definition ShortAddress : Type := Z.
(** [TimeMilli]: a 32-bit millisecond counter. *)
Definition TimeMilli : Type := Z.

(** [sizeof(Ip6::Address)] *)
Definition sizeof_Address : Z := 16.

Inductive otError : Type :=
| OT_ERROR_NONE
| OT_ERROR_FAILED
| OT_ERROR_DROP
| OT_ERROR_NO_BUFS
| OT_ERROR_PARSE
| OT_ERROR_INVALID_ARGS
| OT_ERROR_NOT_FOUND
| OT_ERROR_ALREADY
| OT_ERROR_INVALID_STATE
| OT_ERROR_DUPLICATED.

#[global] Instance otError_eq_decision : EqDecision otError.
Proof. solve_decision. Defined.

Inductive otBackboneRouterState : Type :=
| OT_BACKBONE_ROUTER_STATE_DISABLED
| OT_BACKBONE_ROUTER_STATE_SECONDARY
| OT_BACKBONE_ROUTER_STATE_PRIMARY.

#[global] Instance otBackboneRouterState_eq_decision :
  EqDecision otBackboneRouterState.
Proof. solve_decision. Defined.

(** [ThreadStatusTlv::MlrStatus] *)
Inductive MlrStatus : Type :=
| kMlrSuccess
| kMlrInvalid
| kMlrNoPersistent
| kMlrNoResources
| kMlrBbrNotPrimary
| kMlrGeneralFailure.

#[global] Instance MlrStatus_eq_decision : EqDecision MlrStatus.
Proof. solve_decision. Defined.

(** [ThreadStatusTlv::DuaStatus].  The certification hook stores a raw
    [uint8_t] and casts it to the enumeration; [kDuaRawStatus] is the image
    of that cast. *)
Inductive DuaStatus : Type :=
| kDuaSuccess
| kDuaReRegister
| kDuaInvalid
| kDuaDuplicate
| kDuaNoResources
| kDuaNotPrimary
| kDuaGeneralFailure
| kDuaRawStatus (raw : Z).

#[global] Instance DuaStatus_eq_decision : EqDecision DuaStatus.
Proof. solve_decision. Defined.

(** Notifier events; [Events] is the set handed to the handler. *)
Inductive Event : Type :=
| kEventThreadBackboneRouterStateChanged
| kEventOther (bit : nat).

#[global] Instance Event_eq_decision : EqDecision Event.
Proof. solve_decision. Defined.

Definition Events : Type := list Event.

Definition Contains (aEvents : Events) (e : Event) : bool :=
  bool_decide (e ∈ aEvents).

(** ** Results of a run *)

Inductive Fault : Type :=
| AssertFailed          (* OT_ASSERT(false) *)
| OutOfBounds           (* access outside a fixed array *)
| IndeterminateValue    (* use of a variable or array cell never written *)
| Diverges.             (* loop not finished within its step budget *)

Inductive Result (A : Type) : Type :=
| Ok (a : A)
| Fail (f : Fault).

Arguments Ok {A} a.
Arguments Fail {A} f.

#[global] Instance Result_ret : MRet Result := @Ok.
#[global] Instance Result_bind : MBind Result :=
  fun A B f r => match r with Ok a => f a | Fail e => Fail e end.

(** ** Inbound messages *)

(** What the handlers read from a [Coap::Message]: the header test and the
    result of each TLV lookup.  A lookup that fails is [None]; the value of
    the IPv6 Addresses TLV is kept as bytes, since the handler reads it by
    offset. *)
Record Message : Type := {
  IsConfirmablePostRequest : bool;
  tlvCommissionerSessionId : option Z;          (* FindUint16Tlv *)
  tlvTimeout : option Z;                        (* FindUint32Tlv *)
  tlvIPv6Addresses : option (list byte);        (* FindTlvValueOffset *)
  tlvTarget : option Address;                   (* FindTlv, kTarget *)
  tlvMeshLocalEid : option InterfaceIdentifier; (* FindTlv, kMeshLocalEid *)
  tlvLastTransactionTime : option Z             (* FindUint32Tlv *)
}.

(** [Ip6::MessageInfo], as far as the handlers read it. *)
Record MessageInfo : Type := {
  GetPeerAddr : Address
}.

(** [aMessage.Read(addressesOffset + offset, address)], on the value of the
    TLV: an address is read only if 16 bytes are there. *)
Definition Read (value : list byte) (offset : Z) : option Address :=
  let bytes := take 16 (drop (Z.to_nat offset) value) in
  if bool_decide (length bytes = 16%nat) then Some bytes else None.

(** ** Outbound messages *)

Inductive Transmission : Type :=
| MlrResponse (status : MlrStatus) (failed : list Address)
| BackboneMlrNotification (addresses : list Address) (timeout : Z)
| DuaResponse (target : Address) (status : DuaStatus)
| EmptyAck (code : Z).

#[global] Instance Transmission_eq_decision : EqDecision Transmission.
Proof. solve_decision. Defined.

(** ** Collaborators *)

(** The constants and member functions the manager uses from other
    translation units.  [kIPv6AddressesNumMax] is also the bound of the
    array [addresses]. *)
Class Collaborators : Type := {
  (* thread_tlvs.hpp *)
  kIPv6AddressesNumMin : Z;
  kIPv6AddressesNumMax : Z;
  (* mle_types.hpp *)
  kMlrTimeoutMin : Z;
  kMlrTimeoutMax : Z;
  (* bbr_manager.hpp *)
  kTimerInterval : Z;
  (* coap_message.hpp *)
  kCodeEmpty : Z;
  kCodeResponseMin : Z;
  (* multicast_listeners_table.hpp *)
  MulticastListenersTable : Type;
  MulticastListenersTable_Add :
    Address -> TimeMilli -> MulticastListenersTable ->
    otError * MulticastListenersTable;
  MulticastListenersTable_Remove :
    Address -> MulticastListenersTable -> MulticastListenersTable;
  MulticastListenersTable_Expire :
    TimeMilli -> MulticastListenersTable -> MulticastListenersTable;
  MulticastListenersTable_Clear :
    MulticastListenersTable -> MulticastListenersTable;
  MulticastListenersTable_Count : MulticastListenersTable -> nat;
  (* ndproxy_table.hpp *)
  NdProxyTable : Type;
  NdProxyTable_Register :
    InterfaceIdentifier -> InterfaceIdentifier -> ShortAddress -> option Z ->
    NdProxyTable -> otError * NdProxyTable;
  NdProxyTable_IsRegistered : InterfaceIdentifier -> NdProxyTable -> bool;
  (* address_resolver.hpp *)
  AddressResolver : Type;
  AddressResolver_Resolve :
    Address -> bool -> AddressResolver ->
    otError * ShortAddress * AddressResolver;
  (* backbone_tmf.hpp *)
  BackboneTmfAgent : Type;
  BackboneTmfAgent_Start : BackboneTmfAgent -> otError * BackboneTmfAgent;
  BackboneTmfAgent_Stop : BackboneTmfAgent -> otError * BackboneTmfAgent;
  (* ip6_address.hpp *)
  GetIid : Address -> InterfaceIdentifier;
  IsUnspecified : InterfaceIdentifier -> bool;
  IsRoutingLocator : InterfaceIdentifier -> bool;
  GetLocator : InterfaceIdentifier -> ShortAddress
}.

(** ** The expiry timer *)

(** Modelled from the spec: the periodic timer ([TimerMilli], whose source
    is not part of the translation unit).  It is stopped or running; when
    running it "fires at a fixed interval" after it was started. *)
Definition Timer : Type := option TimeMilli.

Definition Timer_Start (now : TimeMilli) (aDelay : Z) (t : Timer) : Timer :=
  Some (uint32 (now + aDelay)).

Definition Timer_Stop (t : Timer) : Timer := None.

Definition Timer_IsRunning (t : Timer) : bool := bool_decide (is_Some t).

(** ** State *)

(** What the handlers read and never write: the clock, the local role,
    the leader's Backbone Router configuration and network data. *)
Record Env : Type := {
  GetNow : TimeMilli;                         (* TimerMilli::GetNow() *)
  GetState : otBackboneRouterState;           (* Get<Local>().GetState() *)
  IsPrimary : bool;                           (* Get<Local>().IsPrimary() *)
  mMlrTimeout : Z;                            (* Leader::GetConfig *)
  IsDomainUnicast : Address -> bool;          (* Leader::IsDomainUnicast *)
  GetCommissionerSessionId : option Z;        (* commissioning data sub-TLV *)
  GetRloc16 : ShortAddress                    (* Mle::MleRouter::GetRloc16 *)
}.

Section Manager.
Context `{Collaborators}.

(** The manager's members, the two resources' registration with the mesh
    TMF agent, and the address resolver. *)
Record Manager : Type := {
  mMulticastListenerRegistration : bool;  (* resource added to the agent *)
  mDuaRegistration : bool;                (* resource added to the agent *)
  mNdProxyTable : NdProxyTable;
  mMulticastListenersTable : MulticastListenersTable;
  mTimer : Timer;
  mBackboneTmfAgent : BackboneTmfAgent;
  mDuaResponseTargetMlIid : InterfaceIdentifier;
  mDuaResponseStatus : Z;
  mMlrResponseStatus : MlrStatus;
  mDuaResponseIsSpecified : bool;
  mMlrResponseIsSpecified : bool;
  mAddressResolver : AddressResolver
}.

Definition set_mMulticastListenersTable (t : MulticastListenersTable)
  (m : Manager) : Manager :=
  {| mMulticastListenerRegistration := mMulticastListenerRegistration m;
     mDuaRegistration := mDuaRegistration m;
     mNdProxyTable := mNdProxyTable m;
     mMulticastListenersTable := t;
     mTimer := mTimer m;
     mBackboneTmfAgent := mBackboneTmfAgent m;
     mDuaResponseTargetMlIid := mDuaResponseTargetMlIid m;
     mDuaResponseStatus := mDuaResponseStatus m;
     mMlrResponseStatus := mMlrResponseStatus m;
     mDuaResponseIsSpecified := mDuaResponseIsSpecified m;
     mMlrResponseIsSpecified := mMlrResponseIsSpecified m;
     mAddressResolver := mAddressResolver m |}.

Definition set_mNdProxyTable (t : NdProxyTable) (m : Manager) : Manager :=
  {| mMulticastListenerRegistration := mMulticastListenerRegistration m;
     mDuaRegistration := mDuaRegistration m;
     mNdProxyTable := t;
     mMulticastListenersTable := mMulticastListenersTable m;
     mTimer := mTimer m;
     mBackboneTmfAgent := mBackboneTmfAgent m;
     mDuaResponseTargetMlIid := mDuaResponseTargetMlIid m;
     mDuaResponseStatus := mDuaResponseStatus m;
     mMlrResponseStatus := mMlrResponseStatus m;
     mDuaResponseIsSpecified := mDuaResponseIsSpecified m;
     mMlrResponseIsSpecified := mMlrResponseIsSpecified m;
     mAddressResolver := mAddressResolver m |}.

Definition set_mAddressResolver (r : AddressResolver) (m : Manager)
  : Manager :=
  {| mMulticastListenerRegistration := mMulticastListenerRegistration m;
     mDuaRegistration := mDuaRegistration m;
     mNdProxyTable := mNdProxyTable m;
     mMulticastListenersTable := mMulticastListenersTable m;
     mTimer := mTimer m;
     mBackboneTmfAgent := mBackboneTmfAgent m;
     mDuaResponseTargetMlIid := mDuaResponseTargetMlIid m;
     mDuaResponseStatus := mDuaResponseStatus m;
     mMlrResponseStatus := mMlrResponseStatus m;
     mDuaResponseIsSpecified := mDuaResponseIsSpecified m;
     mMlrResponseIsSpecified := mMlrResponseIsSpecified m;
     mAddressResolver := r |}.

Definition set_mMlrResponseIsSpecified (b : bool) (m : Manager) : Manager :=
  {| mMulticastListenerRegistration := mMulticastListenerRegistration m;
     mDuaRegistration := mDuaRegistration m;
     mNdProxyTable := mNdProxyTable m;
     mMulticastListenersTable := mMulticastListenersTable m;
     mTimer := mTimer m;
     mBackboneTmfAgent := mBackboneTmfAgent m;
     mDuaResponseTargetMlIid := mDuaResponseTargetMlIid m;
     mDuaResponseStatus := mDuaResponseStatus m;
     mMlrResponseStatus := mMlrResponseStatus m;
     mDuaResponseIsSpecified := mDuaResponseIsSpecified m;
     mMlrResponseIsSpecified := b;
     mAddressResolver := mAddressResolver m |}.

Definition set_mDuaResponseIsSpecified (b : bool) (m : Manager) : Manager :=
  {| mMulticastListenerRegistration := mMulticastListenerRegistration m;
     mDuaRegistration := mDuaRegistration m;
     mNdProxyTable := mNdProxyTable m;
     mMulticastListenersTable := mMulticastListenersTable m;
     mTimer := mTimer m;
     mBackboneTmfAgent := mBackboneTmfAgent m;
     mDuaResponseTargetMlIid := mDuaResponseTargetMlIid m;
     mDuaResponseStatus := mDuaResponseStatus m;
     mMlrResponseStatus := mMlrResponseStatus m;
     mDuaResponseIsSpecified := b;
     mMlrResponseIsSpecified := mMlrResponseIsSpecified m;
     mAddressResolver := mAddressResolver m |}.


(** ** The fixed array [addresses] *)

(** A cell is [None] until it is written. *)
Definition array_new (n : Z) : list (option Address) :=
  replicate (Z.to_nat n) None.

Definition array_write (arr : list (option Address)) (i : Z) (a : Address)
  : Result (list (option Address)) :=
  if (0 <=? i) && (i <? Z.of_nat (length arr))
  then Ok (<[Z.to_nat i := Some a]> arr)
  else Fail OutOfBounds.

Definition array_read (arr : list (option Address)) (i : Z)
  : Result Address :=
  if (0 <=? i) && (i <? Z.of_nat (length arr))
  then match arr !! Z.to_nat i with
       | Some (Some a) => Ok a
       | _ => Fail IndeterminateValue
       end
  else Fail OutOfBounds.

(** The [n] cells from [base] on, in index order. *)
Fixpoint array_slice (arr : list (option Address)) (base : Z) (n : nat)
  : Result (list Address) :=
  match n with
  | O => Ok []
  | S n' =>
      a ← array_read arr base;
      rest ← array_slice arr (base + 1) n';
      Ok (a :: rest)
  end.

(** ** Sending *)

(** [Manager::SendMulticastListenerRegistrationResponse]: a Status TLV and,
    when [aFailedAddressNum > 0], an IPv6 Addresses TLV with
    [aFailedAddresses[0 .. aFailedAddressNum)]. *)
Definition SendMulticastListenerRegistrationResponse
  (aStatus : MlrStatus) (aFailedAddresses : list (option Address))
  (aFailedAddressNum : Z) : Result (list Transmission) :=
  if 0 <? aFailedAddressNum then
    failed ← array_slice aFailedAddresses 0 (Z.to_nat aFailedAddressNum);
    Ok [MlrResponse aStatus failed]
  else Ok [MlrResponse aStatus []].

(** [Manager::SendBackboneMulticastListenerRegistration]; [aAddresses] is
    the array together with the index the pointer refers to. *)
Definition SendBackboneMulticastListenerRegistration
  (aAddresses : list (option Address)) (aBase : Z) (aAddressNum : Z)
  (aTimeout : Z) : Result (list Transmission) :=
  if (kIPv6AddressesNumMin <=? aAddressNum)
     && (aAddressNum <=? kIPv6AddressesNumMax)
  then
    sent ← array_slice aAddresses aBase (Z.to_nat aAddressNum);
    Ok [BackboneMlrNotification sent aTimeout]
  else Fail AssertFailed.

(** [Manager::SendDuaRegistrationResponse] *)
Definition SendDuaRegistrationResponse (aTarget : Address)
  (aStatus : DuaStatus) : list Transmission :=
  [DuaResponse aTarget aStatus].

(** ** Multicast Listener Registration *)

(** [TimeMilli::SecToMsec], in 32 bits. *)
Definition SecToMsec (aSeconds : Z) : Z := uint32 (aSeconds * 1000).

(** The variables of the handler that the address loop updates. *)
Record MlrLoop : Type := {
  lpTable : MulticastListenersTable;
  lpStatus : MlrStatus;
  lpAddresses : list (option Address);
  lpFailedAddressNum : Z;
  lpSuccessAddressNum : Z
}.

(** The body of the [for] loop for one [address]. *)
Definition mlr_register (timeout : Z) (expireTime : TimeMilli)
  (address : Address) (s : MlrLoop) : Result MlrLoop :=
  if timeout =? 0 then
    Ok {| lpTable := MulticastListenersTable_Remove address (lpTable s);
          lpStatus := lpStatus s;
          lpAddresses := lpAddresses s;
          lpFailedAddressNum := lpFailedAddressNum s;
          lpSuccessAddressNum := lpSuccessAddressNum s |}
  else
    let '(e, table) :=
      MulticastListenersTable_Add address expireTime (lpTable s) in
    '(failed, status) ←
      match e with
      | OT_ERROR_NONE => Ok (false, lpStatus s)
      | OT_ERROR_INVALID_ARGS =>
          Ok (true, if decide (lpStatus s = kMlrSuccess)
                    then kMlrInvalid else lpStatus s)
      | OT_ERROR_NO_BUFS =>
          Ok (true, if decide (lpStatus s = kMlrSuccess)
                    then kMlrNoResources else lpStatus s)
      | _ => Fail AssertFailed
      end;
    if failed : bool then
      arr ← array_write (lpAddresses s) (lpFailedAddressNum s) address;
      Ok {| lpTable := table;
            lpStatus := status;
            lpAddresses := arr;
            lpFailedAddressNum := uint8 (lpFailedAddressNum s + 1);
            lpSuccessAddressNum := lpSuccessAddressNum s |}
    else
      let successAddressNum := uint8 (lpSuccessAddressNum s + 1) in
      arr ← array_write (lpAddresses s)
              (kIPv6AddressesNumMax - successAddressNum) address;
      Ok {| lpTable := table;
            lpStatus := status;
            lpAddresses := arr;
            lpFailedAddressNum := lpFailedAddressNum s;
            lpSuccessAddressNum := successAddressNum |}.

(** [for (uint16_t offset = 0; offset < addressesLength;
          offset += sizeof(Ip6::Address))], entered at [offset].  The
    result of [Read] is ignored by the code; a short read would leave
    [address] partly written, and the run stops there. *)
Fixpoint mlr_loop (fuel : nat) (value : list byte) (addressesLength : Z)
  (timeout : Z) (expireTime : TimeMilli) (offset : Z) (s : MlrLoop)
  : Result MlrLoop :=
  if offset <? addressesLength then
    match fuel with
    | O => Fail Diverges
    | S fuel' =>
        match Read value offset with
        | None => Fail IndeterminateValue
        | Some address =>
            s' ← mlr_register timeout expireTime address s;
            mlr_loop fuel' value addressesLength timeout expireTime
              (uint16 (offset + sizeof_Address)) s'
        end
    end
  else Ok s.

(** The handler's local variables at the label [exit]. *)
Record MlrLocals : Type := {
  error : otError;
  status : MlrStatus;
  addresses : list (option Address);
  failedAddressNum : Z;
  successAddressNum : Z;
  timeout : option Z
}.

(** Where the checks before the loop leave the handler: at [exit], with
    [error] and [status] set, or at the loop, with the value of the IPv6
    Addresses TLV and the timeout to apply. *)
Inductive MlrValidated : Type :=
| MlrExit (error : otError) (status : MlrStatus) (m : Manager)
| MlrProceed (value : list byte) (timeout : Z).

(** [Manager::HandleMulticastListenerRegistration], from its first
    statement to the computation of [expireTime]. *)
Definition mlr_validate (env : Env) (aMessage : Message) (m : Manager)
  : MlrValidated :=
  if negb (IsConfirmablePostRequest aMessage) then
    MlrExit OT_ERROR_PARSE kMlrSuccess m
  else if mMlrResponseIsSpecified m then
    MlrExit OT_ERROR_NONE (mMlrResponseStatus m)
      (set_mMlrResponseIsSpecified false m)
  else if negb (IsPrimary env) then
    MlrExit OT_ERROR_NONE kMlrBbrNotPrimary m
  else
    let session :=
      match tlvCommissionerSessionId aMessage with
      | Some commissionerSessionId =>
          if bool_decide
               (GetCommissionerSessionId env = Some commissionerSessionId)
          then inr true
          else inl kMlrGeneralFailure
      | None => inr false
      end in
    match session with
    | inl status => MlrExit OT_ERROR_NONE status m
    | inr hasCommissionerSessionIdTlv =>
        (* processTimeoutTlv: the Timeout TLV is looked up only with a
           Commissioner Session ID TLV *)
        let processTimeoutTlv :=
          if hasCommissionerSessionIdTlv : bool
          then tlvTimeout aMessage else None in
        match tlvIPv6Addresses aMessage with
        | None => MlrExit OT_ERROR_PARSE kMlrSuccess m
        | Some value =>
            let addressesLength := Z.of_nat (length value) in
            if negb (addressesLength mod sizeof_Address =? 0) then
              MlrExit OT_ERROR_NONE kMlrGeneralFailure m
            else if negb (addressesLength / sizeof_Address
                          <=? kIPv6AddressesNumMax) then
              MlrExit OT_ERROR_NONE kMlrGeneralFailure m
            else
              match processTimeoutTlv with
              | None => MlrProceed value (mMlrTimeout env)
              | Some timeout =>
                  if negb (timeout <? UINT32_MAX) then
                    MlrExit OT_ERROR_NONE kMlrNoPersistent m
                  else if negb (timeout =? 0) then
                    MlrProceed value
                      (OT_MAX (OT_MIN timeout (uint32 kMlrTimeoutMax))
                              (uint32 kMlrTimeoutMin))
                  else MlrProceed value timeout
              end
        end
    end.

(** [expireTime = TimerMilli::GetNow() + TimeMilli::SecToMsec(timeout)] *)
Definition mlr_expireTime (env : Env) (timeout : Z) : TimeMilli :=
  uint32 (GetNow env + SecToMsec timeout).

(** The loop's variables on entry. *)
Definition mlr_loop_init (m : Manager) : MlrLoop :=
  {| lpTable := mMulticastListenersTable m;
     lpStatus := kMlrSuccess;
     lpAddresses := array_new kIPv6AddressesNumMax;
     lpFailedAddressNum := 0;
     lpSuccessAddressNum := 0 |}.

(** [Manager::HandleMulticastListenerRegistration] up to the label
    [exit]. *)
Definition mlr_body (env : Env) (aMessage : Message) (m : Manager)
  : Result (MlrLocals * Manager) :=
  match mlr_validate env aMessage m with
  | MlrExit error status m' =>
      Ok ({| error := error;
             status := status;
             addresses := array_new kIPv6AddressesNumMax;
             failedAddressNum := 0;
             successAddressNum := 0;
             timeout := None |}, m')
  | MlrProceed value timeout =>
      s ← mlr_loop (length value) value (Z.of_nat (length value)) timeout
            (mlr_expireTime env timeout) 0 (mlr_loop_init m);
      Ok ({| error := OT_ERROR_NONE;
             status := lpStatus s;
             addresses := lpAddresses s;
             failedAddressNum := lpFailedAddressNum s;
             successAddressNum := lpSuccessAddressNum s;
             timeout := Some timeout |},
          set_mMulticastListenersTable (lpTable s) m)
  end.

(** [Manager::HandleMulticastListenerRegistration] *)
Definition HandleMulticastListenerRegistration (env : Env)
  (aMessage : Message) (aMessageInfo : MessageInfo) (m : Manager)
  : Result (Manager * list Transmission) :=
  '(l, m') ← mlr_body env aMessage m;
  response ←
    (if decide (error l = OT_ERROR_NONE) then
       SendMulticastListenerRegistrationResponse
         (status l) (addresses l) (failedAddressNum l)
     else Ok []);
  notification ←
    (if 0 <? successAddressNum l then
       match timeout l with
       | Some timeout =>
           SendBackboneMulticastListenerRegistration (addresses l)
             (kIPv6AddressesNumMax - successAddressNum l)
             (successAddressNum l) timeout
       | None => Fail IndeterminateValue
       end
     else Ok []);
  Ok (m', response ++ notification).


(** ** Domain Unicast Address registration *)

(** The handler's local variables at the label [exit]. *)
Record DuaLocals : Type := {
  duaError : otError;
  duaStatus : DuaStatus;
  duaTarget : option Address;
  duaRespCoapCode : Z
}.

(** [Manager::HandleDuaRegistration] up to the label [exit].  A TLV that is
    not found leaves the lookup's error in [error]; only its being different
    from [OT_ERROR_NONE] is read. *)
Definition dua_body (env : Env) (aMessage : Message)
  (aMessageInfo : MessageInfo) (m : Manager) : DuaLocals * Manager :=
  let exit error status target code :=
    {| duaError := error; duaStatus := status; duaTarget := target;
       duaRespCoapCode := code |} in
  if negb (IsRoutingLocator (GetIid (GetPeerAddr aMessageInfo))) then
    (exit OT_ERROR_DROP kDuaSuccess None kCodeEmpty, m)
  else if negb (IsConfirmablePostRequest aMessage) then
    (exit OT_ERROR_PARSE kDuaSuccess None kCodeEmpty, m)
  else
    match tlvTarget aMessage with
    | None => (exit OT_ERROR_NOT_FOUND kDuaSuccess None kCodeEmpty, m)
    | Some target =>
        match tlvMeshLocalEid aMessage with
        | None =>
            (exit OT_ERROR_NOT_FOUND kDuaSuccess (Some target) kCodeEmpty, m)
        | Some meshLocalIid =>
            if mDuaResponseIsSpecified m
               && (IsUnspecified (mDuaResponseTargetMlIid m)
                   || bool_decide (mDuaResponseTargetMlIid m = meshLocalIid))
            then
              let m' := set_mDuaResponseIsSpecified false m in
              if kCodeResponseMin <=? mDuaResponseStatus m then
                (exit OT_ERROR_NONE kDuaSuccess (Some target)
                   (mDuaResponseStatus m), m')
              else
                (exit OT_ERROR_NONE (kDuaRawStatus (mDuaResponseStatus m))
                   (Some target) kCodeEmpty, m')
            else if negb (IsPrimary env) then
              (exit OT_ERROR_NONE kDuaNotPrimary (Some target) kCodeEmpty, m)
            else if negb (IsDomainUnicast env target) then
              (exit OT_ERROR_NONE kDuaInvalid (Some target) kCodeEmpty, m)
            else
              let lastTransactionTime := tlvLastTransactionTime aMessage in
              let '(e, table) :=
                NdProxyTable_Register (GetIid target) meshLocalIid
                  (GetLocator (GetIid (GetPeerAddr aMessageInfo)))
                  lastTransactionTime (mNdProxyTable m) in
              let status :=
                match e with
                | OT_ERROR_NONE => kDuaSuccess
                | OT_ERROR_DUPLICATED => kDuaDuplicate
                | OT_ERROR_NO_BUFS => kDuaNoResources
                | _ => kDuaGeneralFailure
                end in
              (exit OT_ERROR_NONE status (Some target) kCodeEmpty,
               set_mNdProxyTable table m)
        end
    end.

(** [Manager::HandleDuaRegistration] *)
Definition HandleDuaRegistration (env : Env) (aMessage : Message)
  (aMessageInfo : MessageInfo) (m : Manager)
  : Result (Manager * list Transmission) :=
  let '(l, m') := dua_body env aMessage aMessageInfo m in
  if decide (duaError l = OT_ERROR_NONE) then
    if negb (duaRespCoapCode l =? kCodeEmpty) then
      Ok (m', [EmptyAck (duaRespCoapCode l)])
    else
      match duaTarget l with
      | Some target => Ok (m', SendDuaRegistrationResponse target (duaStatus l))
      | None => Fail IndeterminateValue
      end
  else Ok (m', []).

(** ** Lifecycle *)

(** [Manager::HandleNotifierEvents] *)
Definition HandleNotifierEvents (env : Env) (aEvents : Events) (m : Manager)
  : Manager :=
  if Contains aEvents kEventThreadBackboneRouterStateChanged then
    if decide (GetState env = OT_BACKBONE_ROUTER_STATE_DISABLED) then
      {| mMulticastListenerRegistration := false;
         mDuaRegistration := false;
         mNdProxyTable := mNdProxyTable m;
         mMulticastListenersTable :=
           MulticastListenersTable_Clear (mMulticastListenersTable m);
         mTimer := Timer_Stop (mTimer m);
         mBackboneTmfAgent := snd (BackboneTmfAgent_Stop (mBackboneTmfAgent m));
         mDuaResponseTargetMlIid := mDuaResponseTargetMlIid m;
         mDuaResponseStatus := mDuaResponseStatus m;
         mMlrResponseStatus := mMlrResponseStatus m;
         mDuaResponseIsSpecified := mDuaResponseIsSpecified m;
         mMlrResponseIsSpecified := mMlrResponseIsSpecified m;
         mAddressResolver := mAddressResolver m |}
    else
      {| mMulticastListenerRegistration := true;
         mDuaRegistration := true;
         mNdProxyTable := mNdProxyTable m;
         mMulticastListenersTable := mMulticastListenersTable m;
         mTimer :=
           if negb (Timer_IsRunning (mTimer m))
           then Timer_Start (GetNow env) kTimerInterval (mTimer m)
           else mTimer m;
         mBackboneTmfAgent :=
           snd (BackboneTmfAgent_Start (mBackboneTmfAgent m));
         mDuaResponseTargetMlIid := mDuaResponseTargetMlIid m;
         mDuaResponseStatus := mDuaResponseStatus m;
         mMlrResponseStatus := mMlrResponseStatus m;
         mDuaResponseIsSpecified := mDuaResponseIsSpecified m;
         mMlrResponseIsSpecified := mMlrResponseIsSpecified m;
         mAddressResolver := mAddressResolver m |}
  else m.

(** [Manager::HandleTimer] *)
Definition HandleTimer (env : Env) (m : Manager) : Manager :=
  {| mMulticastListenerRegistration := mMulticastListenerRegistration m;
     mDuaRegistration := mDuaRegistration m;
     mNdProxyTable := mNdProxyTable m;
     mMulticastListenersTable :=
       MulticastListenersTable_Expire (GetNow env)
         (mMulticastListenersTable m);
     mTimer := Timer_Start (GetNow env) kTimerInterval (mTimer m);
     mBackboneTmfAgent := mBackboneTmfAgent m;
     mDuaResponseTargetMlIid := mDuaResponseTargetMlIid m;
     mDuaResponseStatus := mDuaResponseStatus m;
     mMlrResponseStatus := mMlrResponseStatus m;
     mDuaResponseIsSpecified := mDuaResponseIsSpecified m;
     mMlrResponseIsSpecified := mMlrResponseIsSpecified m;
     mAddressResolver := mAddressResolver m |}.

(** ** Forward decision *)

(** [Manager::ShouldForwardDuaToBackbone]; the resolver is the one
    collaborator the query calls through a non-const member. *)
Definition ShouldForwardDuaToBackbone (env : Env) (aAddress : Address)
  (m : Manager) : bool * Manager :=
  if negb (IsPrimary env) then (false, m)
  else if negb (IsDomainUnicast env aAddress) then (false, m)
  else if NdProxyTable_IsRegistered (GetIid aAddress) (mNdProxyTable m)
  then (false, m)
  else
    let '(error, rloc16, resolver) :=
      AddressResolver_Resolve aAddress false (mAddressResolver m) in
    let m' := set_mAddressResolver resolver m in
    if negb (bool_decide (error ≠ OT_ERROR_NONE)
             || bool_decide (rloc16 = GetRloc16 env))
    then (false, m')
    else (true, m').

(** ** Pre-arming the next response *)

(** [Manager::ConfigNextDuaRegistrationResponse]; [aMlIid] is [None] for a
    null pointer, in which case the stored identifier is cleared to
    zeros. *)
Definition ConfigNextDuaRegistrationResponse
  (aMlIid : option InterfaceIdentifier) (aStatus : Z) (m : Manager)
  : Manager :=
  {| mMulticastListenerRegistration := mMulticastListenerRegistration m;
     mDuaRegistration := mDuaRegistration m;
     mNdProxyTable := mNdProxyTable m;
     mMulticastListenersTable := mMulticastListenersTable m;
     mTimer := mTimer m;
     mBackboneTmfAgent := mBackboneTmfAgent m;
     mDuaResponseTargetMlIid :=
       match aMlIid with
       | Some iid => iid
       | None => replicate 8 x00
       end;
     mDuaResponseStatus := aStatus;
     mMlrResponseStatus := mMlrResponseStatus m;
     mDuaResponseIsSpecified := true;
     mMlrResponseIsSpecified := mMlrResponseIsSpecified m;
     mAddressResolver := mAddressResolver m |}.

(** [Manager::ConfigNextMulticastListenerRegistrationResponse] *)
Definition ConfigNextMulticastListenerRegistrationResponse
  (aStatus : MlrStatus) (m : Manager) : Manager :=
  {| mMulticastListenerRegistration := mMulticastListenerRegistration m;
     mDuaRegistration := mDuaRegistration m;
     mNdProxyTable := mNdProxyTable m;
     mMulticastListenersTable := mMulticastListenersTable m;
     mTimer := mTimer m;
     mBackboneTmfAgent := mBackboneTmfAgent m;
     mDuaResponseTargetMlIid := mDuaResponseTargetMlIid m;
     mDuaResponseStatus := mDuaResponseStatus m;
     mMlrResponseStatus := aStatus;
     mDuaResponseIsSpecified := mDuaResponseIsSpecified m;
     mMlrResponseIsSpecified := true;
     mAddressResolver := mAddressResolver m |}.

(** [Manager::GetNdProxyTable] *)
Definition GetNdProxyTable (m : Manager) : NdProxyTable := mNdProxyTable m.

End Manager.

(** * Vocabulary of the properties *)

Section Vocabulary.
Context `{Collaborators}.

(** ** Requests and outcomes *)

(** The addresses of an IPv6 Addresses TLV value, in the order of the
    value. *)
Fixpoint chunks (n : nat) (value : list byte) : list Address :=
  match n with
  | O => []
  | S n' => take 16 value :: chunks n' (drop 16 value)
  end.

Definition RequestAddresses (value : list byte) : list Address :=
  chunks (length value / 16) value.

(** The outcome of adding each address in turn, and the table left. *)
Fixpoint AddEach (expireTime : TimeMilli) (addrs : list Address)
  (t : MulticastListenersTable)
  : list (Address * otError) * MulticastListenersTable :=
  match addrs with
  | [] => ([], t)
  | a :: rest =>
      let '(e, t') := MulticastListenersTable_Add a expireTime t in
      let '(rs, t'') := AddEach expireTime rest t' in
      ((a, e) :: rs, t'')
  end.

Definition RemoveEach (addrs : list Address) (t : MulticastListenersTable)
  : MulticastListenersTable :=
  foldl (fun t a => MulticastListenersTable_Remove a t) t addrs.

Definition succeeded (rs : list (Address * otError)) : list Address :=
  (filter (fun r : Address * otError => r.2 = OT_ERROR_NONE) rs).*1.

Definition failed (rs : list (Address * otError)) : list Address :=
  (filter (fun r : Address * otError => r.2 ≠ OT_ERROR_NONE) rs).*1.

(** The status after one more outcome: only [kMlrSuccess] is replaced. *)
Definition merge_status (status : MlrStatus) (e : otError) : MlrStatus :=
  match e with
  | OT_ERROR_INVALID_ARGS =>
      if decide (status = kMlrSuccess) then kMlrInvalid else status
  | OT_ERROR_NO_BUFS =>
      if decide (status = kMlrSuccess) then kMlrNoResources else status
  | _ => status
  end.

(** The three results of [MulticastListenersTable::Add] that the handler
    has a case for. *)
Definition documented (e : otError) : Prop :=
  e = OT_ERROR_NONE ∨ e = OT_ERROR_INVALID_ARGS ∨ e = OT_ERROR_NO_BUFS.

Definition AddReturnsDocumented : Prop :=
  ∀ a expireTime t, documented (MulticastListenersTable_Add a expireTime t).1.

(** The address counts fit the [uint8_t] counters, and one address is
    enough for a backbone notification. *)
Definition ConstantsInRange : Prop :=
  kIPv6AddressesNumMin <= 1 ∧ 0 <= kIPv6AddressesNumMax <= 255.

(** The contents of [addresses] when [Fl] has been filled in from the front
    and [Sl] from the back. *)
Definition shared_array (Fl Sl : list Address) : list (option Address) :=
  (Some <$> Fl)
  ++ replicate (Z.to_nat kIPv6AddressesNumMax - length Fl - length Sl) None
  ++ (Some <$> reverse Sl).

(** The outcome of each table add that handling a request performs, in the
    order of the request: none when the handler leaves before the loop, and
    none when the effective timeout is zero (the addresses are removed,
    not added). *)
Definition mlr_outcomes (env : Env) (aMessage : Message) (m : Manager)
  : list (Address * otError) :=
  match mlr_validate env aMessage m with
  | MlrProceed value timeout =>
      if timeout =? 0 then []
      else (AddEach (mlr_expireTime env timeout) (RequestAddresses value)
              (mMulticastListenersTable m)).1
  | MlrExit _ _ _ => []
  end.

(** ** Timeout bounds *)



(** ** States of the address loop *)

(** The pairs of offset and variables at which the loop's condition is
    evaluated: on entry, and after each completed iteration. *)
Inductive mlr_loop_reaches (value : list byte) (addressesLength : Z)
  (timeout : Z) (expireTime : TimeMilli) (entry : MlrLoop)
  : Z → MlrLoop → Prop :=
| reaches_entry :
    mlr_loop_reaches value addressesLength timeout expireTime entry 0 entry
| reaches_next offset s address s' :
    mlr_loop_reaches value addressesLength timeout expireTime entry offset s →
    offset < addressesLength →
    Read value offset = Some address →
    mlr_register timeout expireTime address s = Ok s' →
    mlr_loop_reaches value addressesLength timeout expireTime entry
      (uint16 (offset + sizeof_Address)) s'.

(** What holds of the variables after [k] iterations. *)
Definition mlr_loop_invariant (k : nat) (s : MlrLoop) : Prop :=
  ∃ Fl Sl : list Address,
    lpAddresses s = shared_array Fl Sl
    ∧ lpFailedAddressNum s = Z.of_nat (length Fl)
    ∧ lpSuccessAddressNum s = Z.of_nat (length Sl)
    ∧ (length Fl + length Sl ≤ k)%nat.

(** ** Two readings to be refuted *)

(** The reading under which forwarding keeps the order of the request:
    a notification lists the added addresses first to last. *)
Definition forwarding_preserves_request_order (env : Env)
  (aMessage : Message) (aMessageInfo : MessageInfo) (m : Manager) : Prop :=
  ∀ m' sent addrs t,
    HandleMulticastListenerRegistration env aMessage aMessageInfo m
    = Ok (m', sent) →
    BackboneMlrNotification addrs t ∈ sent →
    addrs = succeeded (mlr_outcomes env aMessage m).



(** ** Further vocabulary *)

(** A Commissioner Session ID TLV that does not name the session of the
    commissioning data. *)
Definition session_mismatch (env : Env) (aMessage : Message) : Prop :=
  ∃ id, tlvCommissionerSessionId aMessage = Some id
        ∧ GetCommissionerSessionId env ≠ Some id.


(** The manager with the stored MLR test status replaced. *)
Definition with_mMlrResponseStatus (st : MlrStatus) (m : Manager) : Manager :=
  {| mMulticastListenerRegistration := mMulticastListenerRegistration m;
     mDuaRegistration := mDuaRegistration m;
     mNdProxyTable := mNdProxyTable m;
     mMulticastListenersTable := mMulticastListenersTable m;
     mTimer := mTimer m;
     mBackboneTmfAgent := mBackboneTmfAgent m;
     mDuaResponseTargetMlIid := mDuaResponseTargetMlIid m;
     mDuaResponseStatus := mDuaResponseStatus m;
     mMlrResponseStatus := st;
     mDuaResponseIsSpecified := mDuaResponseIsSpecified m;
     mMlrResponseIsSpecified := mMlrResponseIsSpecified m;
     mAddressResolver := mAddressResolver m |}.

(** What can happen to a manager: a notifier event, the timer firing, a
    request on either resource, a test hook being armed. *)
Inductive Operation : Type :=
| OpNotify (env : Env) (aEvents : Events)
| OpTimer (env : Env)
| OpMlr (env : Env) (aMessage : Message) (aMessageInfo : MessageInfo)
| OpDua (env : Env) (aMessage : Message) (aMessageInfo : MessageInfo)
| OpConfigMlr (aStatus : MlrStatus)
| OpConfigDua (aMlIid : option InterfaceIdentifier) (aStatus : Z).

(** One operation; the timer fires only while it is running, and a
    handler's step is a run that returns. *)
Inductive manager_step : Manager → Operation → Manager → Prop :=
| step_notify env aEvents m :
    manager_step m (OpNotify env aEvents) (HandleNotifierEvents env aEvents m)
| step_timer env m :
    Timer_IsRunning (mTimer m) = true →
    manager_step m (OpTimer env) (HandleTimer env m)
| step_mlr env aMessage aMessageInfo m m' sent :
    HandleMulticastListenerRegistration env aMessage aMessageInfo m
    = Ok (m', sent) →
    manager_step m (OpMlr env aMessage aMessageInfo) m'
| step_dua env aMessage aMessageInfo m m' sent :
    HandleDuaRegistration env aMessage aMessageInfo m = Ok (m', sent) →
    manager_step m (OpDua env aMessage aMessageInfo) m'
| step_config_mlr aStatus m :
    manager_step m (OpConfigMlr aStatus)
      (ConfigNextMulticastListenerRegistrationResponse aStatus m)
| step_config_dua aMlIid aStatus m :
    manager_step m (OpConfigDua aMlIid aStatus)
      (ConfigNextDuaRegistrationResponse aMlIid aStatus m).

Inductive manager_steps : Manager → list Operation → Manager → Prop :=
| steps_nil m : manager_steps m [] m
| steps_cons m op m1 ops m2 :
    manager_step m op m1 →
    manager_steps m1 ops m2 →
    manager_steps m (op :: ops) m2.

(** The two resources are registered together, and exactly while the timer
    runs. *)
Definition lifecycle_consistent (m : Manager) : Prop :=
  mDuaRegistration m = mMulticastListenerRegistration m
  ∧ Timer_IsRunning (mTimer m) = mMulticastListenerRegistration m.

End Vocabulary.

(** * Operational Dataset information (src/core/meshcop/dataset.hpp)

    [Dataset::Components] and [Dataset::Info]: which components of an
    Active or Pending Operational Dataset are present, and their values. *)
Module Dataset.

(** [otSecurityPolicy]: key rotation time in hours, and flags. *)
Record otSecurityPolicy : Type := {
  mRotationTime : Z;
  mFlags : Z
}.

(** [Dataset::Components] *)
Record Components : Type := {
  mIsActiveTimestampPresent : bool;
  mIsPendingTimestampPresent : bool;
  mIsMasterKeyPresent : bool;
  mIsNetworkNamePresent : bool;
  mIsExtendedPanIdPresent : bool;
  mIsMeshLocalPrefixPresent : bool;
  mIsDelayPresent : bool;
  mIsPanIdPresent : bool;
  mIsChannelPresent : bool;
  mIsPskcPresent : bool;
  mIsSecurityPolicyPresent : bool;
  mIsChannelMaskPresent : bool
}.

Definition with_mIsActiveTimestampPresent (b : bool) (c : Components)
  : Components :=
  {| mIsActiveTimestampPresent := b;
     mIsPendingTimestampPresent := mIsPendingTimestampPresent c;
     mIsMasterKeyPresent := mIsMasterKeyPresent c;
     mIsNetworkNamePresent := mIsNetworkNamePresent c;
     mIsExtendedPanIdPresent := mIsExtendedPanIdPresent c;
     mIsMeshLocalPrefixPresent := mIsMeshLocalPrefixPresent c;
     mIsDelayPresent := mIsDelayPresent c;
     mIsPanIdPresent := mIsPanIdPresent c;
     mIsChannelPresent := mIsChannelPresent c;
     mIsPskcPresent := mIsPskcPresent c;
     mIsSecurityPolicyPresent := mIsSecurityPolicyPresent c;
     mIsChannelMaskPresent := mIsChannelMaskPresent c |}.

Definition with_mIsPendingTimestampPresent (b : bool) (c : Components)
  : Components :=
  {| mIsActiveTimestampPresent := mIsActiveTimestampPresent c;
     mIsPendingTimestampPresent := b;
     mIsMasterKeyPresent := mIsMasterKeyPresent c;
     mIsNetworkNamePresent := mIsNetworkNamePresent c;
     mIsExtendedPanIdPresent := mIsExtendedPanIdPresent c;
     mIsMeshLocalPrefixPresent := mIsMeshLocalPrefixPresent c;
     mIsDelayPresent := mIsDelayPresent c;
     mIsPanIdPresent := mIsPanIdPresent c;
     mIsChannelPresent := mIsChannelPresent c;
     mIsPskcPresent := mIsPskcPresent c;
     mIsSecurityPolicyPresent := mIsSecurityPolicyPresent c;
     mIsChannelMaskPresent := mIsChannelMaskPresent c |}.

Definition with_mIsMasterKeyPresent (b : bool) (c : Components)
  : Components :=
  {| mIsActiveTimestampPresent := mIsActiveTimestampPresent c;
     mIsPendingTimestampPresent := mIsPendingTimestampPresent c;
     mIsMasterKeyPresent := b;
     mIsNetworkNamePresent := mIsNetworkNamePresent c;
     mIsExtendedPanIdPresent := mIsExtendedPanIdPresent c;
     mIsMeshLocalPrefixPresent := mIsMeshLocalPrefixPresent c;
     mIsDelayPresent := mIsDelayPresent c;
     mIsPanIdPresent := mIsPanIdPresent c;
     mIsChannelPresent := mIsChannelPresent c;
     mIsPskcPresent := mIsPskcPresent c;
     mIsSecurityPolicyPresent := mIsSecurityPolicyPresent c;
     mIsChannelMaskPresent := mIsChannelMaskPresent c |}.

Definition with_mIsNetworkNamePresent (b : bool) (c : Components)
  : Components :=
  {| mIsActiveTimestampPresent := mIsActiveTimestampPresent c;
     mIsPendingTimestampPresent := mIsPendingTimestampPresent c;
     mIsMasterKeyPresent := mIsMasterKeyPresent c;
     mIsNetworkNamePresent := b;
     mIsExtendedPanIdPresent := mIsExtendedPanIdPresent c;
     mIsMeshLocalPrefixPresent := mIsMeshLocalPrefixPresent c;
     mIsDelayPresent := mIsDelayPresent c;
     mIsPanIdPresent := mIsPanIdPresent c;
     mIsChannelPresent := mIsChannelPresent c;
     mIsPskcPresent := mIsPskcPresent c;
     mIsSecurityPolicyPresent := mIsSecurityPolicyPresent c;
     mIsChannelMaskPresent := mIsChannelMaskPresent c |}.

Definition with_mIsExtendedPanIdPresent (b : bool) (c : Components)
  : Components :=
  {| mIsActiveTimestampPresent := mIsActiveTimestampPresent c;
     mIsPendingTimestampPresent := mIsPendingTimestampPresent c;
     mIsMasterKeyPresent := mIsMasterKeyPresent c;
     mIsNetworkNamePresent := mIsNetworkNamePresent c;
     mIsExtendedPanIdPresent := b;
     mIsMeshLocalPrefixPresent := mIsMeshLocalPrefixPresent c;
     mIsDelayPresent := mIsDelayPresent c;
     mIsPanIdPresent := mIsPanIdPresent c;
     mIsChannelPresent := mIsChannelPresent c;
     mIsPskcPresent := mIsPskcPresent c;
     mIsSecurityPolicyPresent := mIsSecurityPolicyPresent c;
     mIsChannelMaskPresent := mIsChannelMaskPresent c |}.

Definition with_mIsMeshLocalPrefixPresent (b : bool) (c : Components)
  : Components :=
  {| mIsActiveTimestampPresent := mIsActiveTimestampPresent c;
     mIsPendingTimestampPresent := mIsPendingTimestampPresent c;
     mIsMasterKeyPresent := mIsMasterKeyPresent c;
     mIsNetworkNamePresent := mIsNetworkNamePresent c;
     mIsExtendedPanIdPresent := mIsExtendedPanIdPresent c;
     mIsMeshLocalPrefixPresent := b;
     mIsDelayPresent := mIsDelayPresent c;
     mIsPanIdPresent := mIsPanIdPresent c;
     mIsChannelPresent := mIsChannelPresent c;
     mIsPskcPresent := mIsPskcPresent c;
     mIsSecurityPolicyPresent := mIsSecurityPolicyPresent c;
     mIsChannelMaskPresent := mIsChannelMaskPresent c |}.

Definition with_mIsDelayPresent (b : bool) (c : Components)
  : Components :=
  {| mIsActiveTimestampPresent := mIsActiveTimestampPresent c;
     mIsPendingTimestampPresent := mIsPendingTimestampPresent c;
     mIsMasterKeyPresent := mIsMasterKeyPresent c;
     mIsNetworkNamePresent := mIsNetworkNamePresent c;
     mIsExtendedPanIdPresent := mIsExtendedPanIdPresent c;
     mIsMeshLocalPrefixPresent := mIsMeshLocalPrefixPresent c;
     mIsDelayPresent := b;
     mIsPanIdPresent := mIsPanIdPresent c;
     mIsChannelPresent := mIsChannelPresent c;
     mIsPskcPresent := mIsPskcPresent c;
     mIsSecurityPolicyPresent := mIsSecurityPolicyPresent c;
     mIsChannelMaskPresent := mIsChannelMaskPresent c |}.

Definition with_mIsPanIdPresent (b : bool) (c : Components)
  : Components :=
  {| mIsActiveTimestampPresent := mIsActiveTimestampPresent c;
     mIsPendingTimestampPresent := mIsPendingTimestampPresent c;
     mIsMasterKeyPresent := mIsMasterKeyPresent c;
     mIsNetworkNamePresent := mIsNetworkNamePresent c;
     mIsExtendedPanIdPresent := mIsExtendedPanIdPresent c;
     mIsMeshLocalPrefixPresent := mIsMeshLocalPrefixPresent c;
     mIsDelayPresent := mIsDelayPresent c;
     mIsPanIdPresent := b;
     mIsChannelPresent := mIsChannelPresent c;
     mIsPskcPresent := mIsPskcPresent c;
     mIsSecurityPolicyPresent := mIsSecurityPolicyPresent c;
     mIsChannelMaskPresent := mIsChannelMaskPresent c |}.

Definition with_mIsChannelPresent (b : bool) (c : Components)
  : Components :=
  {| mIsActiveTimestampPresent := mIsActiveTimestampPresent c;
     mIsPendingTimestampPresent := mIsPendingTimestampPresent c;
     mIsMasterKeyPresent := mIsMasterKeyPresent c;
     mIsNetworkNamePresent := mIsNetworkNamePresent c;
     mIsExtendedPanIdPresent := mIsExtendedPanIdPresent c;
     mIsMeshLocalPrefixPresent := mIsMeshLocalPrefixPresent c;
     mIsDelayPresent := mIsDelayPresent c;
     mIsPanIdPresent := mIsPanIdPresent c;
     mIsChannelPresent := b;
     mIsPskcPresent := mIsPskcPresent c;
     mIsSecurityPolicyPresent := mIsSecurityPolicyPresent c;
     mIsChannelMaskPresent := mIsChannelMaskPresent c |}.

Definition with_mIsPskcPresent (b : bool) (c : Components)
  : Components :=
  {| mIsActiveTimestampPresent := mIsActiveTimestampPresent c;
     mIsPendingTimestampPresent := mIsPendingTimestampPresent c;
     mIsMasterKeyPresent := mIsMasterKeyPresent c;
     mIsNetworkNamePresent := mIsNetworkNamePresent c;
     mIsExtendedPanIdPresent := mIsExtendedPanIdPresent c;
     mIsMeshLocalPrefixPresent := mIsMeshLocalPrefixPresent c;
     mIsDelayPresent := mIsDelayPresent c;
     mIsPanIdPresent := mIsPanIdPresent c;
     mIsChannelPresent := mIsChannelPresent c;
     mIsPskcPresent := b;
     mIsSecurityPolicyPresent := mIsSecurityPolicyPresent c;
     mIsChannelMaskPresent := mIsChannelMaskPresent c |}.

Definition with_mIsSecurityPolicyPresent (b : bool) (c : Components)
  : Components :=
  {| mIsActiveTimestampPresent := mIsActiveTimestampPresent c;
     mIsPendingTimestampPresent := mIsPendingTimestampPresent c;
     mIsMasterKeyPresent := mIsMasterKeyPresent c;
     mIsNetworkNamePresent := mIsNetworkNamePresent c;
     mIsExtendedPanIdPresent := mIsExtendedPanIdPresent c;
     mIsMeshLocalPrefixPresent := mIsMeshLocalPrefixPresent c;
     mIsDelayPresent := mIsDelayPresent c;
     mIsPanIdPresent := mIsPanIdPresent c;
     mIsChannelPresent := mIsChannelPresent c;
     mIsPskcPresent := mIsPskcPresent c;
     mIsSecurityPolicyPresent := b;
     mIsChannelMaskPresent := mIsChannelMaskPresent c |}.

Definition with_mIsChannelMaskPresent (b : bool) (c : Components)
  : Components :=
  {| mIsActiveTimestampPresent := mIsActiveTimestampPresent c;
     mIsPendingTimestampPresent := mIsPendingTimestampPresent c;
     mIsMasterKeyPresent := mIsMasterKeyPresent c;
     mIsNetworkNamePresent := mIsNetworkNamePresent c;
     mIsExtendedPanIdPresent := mIsExtendedPanIdPresent c;
     mIsMeshLocalPrefixPresent := mIsMeshLocalPrefixPresent c;
     mIsDelayPresent := mIsDelayPresent c;
     mIsPanIdPresent := mIsPanIdPresent c;
     mIsChannelPresent := mIsChannelPresent c;
     mIsPskcPresent := mIsPskcPresent c;
     mIsSecurityPolicyPresent := mIsSecurityPolicyPresent c;
     mIsChannelMaskPresent := b |}.

Section Info.
(** [Mac::NetworkName] and [Mac::NameData], with what
    [NetworkName::Set] leaves in the name (its result is ignored). *)
Variables (NetworkName NameData : Type).
Variable NetworkName_Set : NameData -> NetworkName -> NetworkName.

(** [Dataset::Info] *)
Record Info : Type := {
  mActiveTimestamp : Z;
  mPendingTimestamp : Z;
  mMasterKey : list byte;
  mNetworkName : NetworkName;
  mExtendedPanId : list byte;
  mMeshLocalPrefix : list byte;
  mDelay : Z;
  mPanId : Z;
  mChannel : Z;
  mPskc : list byte;
  mSecurityPolicy : otSecurityPolicy;
  mChannelMask : Z;
  mComponents : Components
}.

Definition with_mActiveTimestamp (v : Z) (i : Info) : Info :=
  {| mActiveTimestamp := v;
     mPendingTimestamp := mPendingTimestamp i;
     mMasterKey := mMasterKey i;
     mNetworkName := mNetworkName i;
     mExtendedPanId := mExtendedPanId i;
     mMeshLocalPrefix := mMeshLocalPrefix i;
     mDelay := mDelay i;
     mPanId := mPanId i;
     mChannel := mChannel i;
     mPskc := mPskc i;
     mSecurityPolicy := mSecurityPolicy i;
     mChannelMask := mChannelMask i;
     mComponents := mComponents i |}.

Definition with_mPendingTimestamp (v : Z) (i : Info) : Info :=
  {| mActiveTimestamp := mActiveTimestamp i;
     mPendingTimestamp := v;
     mMasterKey := mMasterKey i;
     mNetworkName := mNetworkName i;
     mExtendedPanId := mExtendedPanId i;
     mMeshLocalPrefix := mMeshLocalPrefix i;
     mDelay := mDelay i;
     mPanId := mPanId i;
     mChannel := mChannel i;
     mPskc := mPskc i;
     mSecurityPolicy := mSecurityPolicy i;
     mChannelMask := mChannelMask i;
     mComponents := mComponents i |}.

Definition with_mMasterKey (v : list byte) (i : Info) : Info :=
  {| mActiveTimestamp := mActiveTimestamp i;
     mPendingTimestamp := mPendingTimestamp i;
     mMasterKey := v;
     mNetworkName := mNetworkName i;
     mExtendedPanId := mExtendedPanId i;
     mMeshLocalPrefix := mMeshLocalPrefix i;
     mDelay := mDelay i;
     mPanId := mPanId i;
     mChannel := mChannel i;
     mPskc := mPskc i;
     mSecurityPolicy := mSecurityPolicy i;
     mChannelMask := mChannelMask i;
     mComponents := mComponents i |}.

Definition with_mNetworkName (v : NetworkName) (i : Info) : Info :=
  {| mActiveTimestamp := mActiveTimestamp i;
     mPendingTimestamp := mPendingTimestamp i;
     mMasterKey := mMasterKey i;
     mNetworkName := v;
     mExtendedPanId := mExtendedPanId i;
     mMeshLocalPrefix := mMeshLocalPrefix i;
     mDelay := mDelay i;
     mPanId := mPanId i;
     mChannel := mChannel i;
     mPskc := mPskc i;
     mSecurityPolicy := mSecurityPolicy i;
     mChannelMask := mChannelMask i;
     mComponents := mComponents i |}.

Definition with_mExtendedPanId (v : list byte) (i : Info) : Info :=
  {| mActiveTimestamp := mActiveTimestamp i;
     mPendingTimestamp := mPendingTimestamp i;
     mMasterKey := mMasterKey i;
     mNetworkName := mNetworkName i;
     mExtendedPanId := v;
     mMeshLocalPrefix := mMeshLocalPrefix i;
     mDelay := mDelay i;
     mPanId := mPanId i;
     mChannel := mChannel i;
     mPskc := mPskc i;
     mSecurityPolicy := mSecurityPolicy i;
     mChannelMask := mChannelMask i;
     mComponents := mComponents i |}.

Definition with_mMeshLocalPrefix (v : list byte) (i : Info) : Info :=
  {| mActiveTimestamp := mActiveTimestamp i;
     mPendingTimestamp := mPendingTimestamp i;
     mMasterKey := mMasterKey i;
     mNetworkName := mNetworkName i;
     mExtendedPanId := mExtendedPanId i;
     mMeshLocalPrefix := v;
     mDelay := mDelay i;
     mPanId := mPanId i;
     mChannel := mChannel i;
     mPskc := mPskc i;
     mSecurityPolicy := mSecurityPolicy i;
     mChannelMask := mChannelMask i;
     mComponents := mComponents i |}.

Definition with_mDelay (v : Z) (i : Info) : Info :=
  {| mActiveTimestamp := mActiveTimestamp i;
     mPendingTimestamp := mPendingTimestamp i;
     mMasterKey := mMasterKey i;
     mNetworkName := mNetworkName i;
     mExtendedPanId := mExtendedPanId i;
     mMeshLocalPrefix := mMeshLocalPrefix i;
     mDelay := v;
     mPanId := mPanId i;
     mChannel := mChannel i;
     mPskc := mPskc i;
     mSecurityPolicy := mSecurityPolicy i;
     mChannelMask := mChannelMask i;
     mComponents := mComponents i |}.

Definition with_mPanId (v : Z) (i : Info) : Info :=
  {| mActiveTimestamp := mActiveTimestamp i;
     mPendingTimestamp := mPendingTimestamp i;
     mMasterKey := mMasterKey i;
     mNetworkName := mNetworkName i;
     mExtendedPanId := mExtendedPanId i;
     mMeshLocalPrefix := mMeshLocalPrefix i;
     mDelay := mDelay i;
     mPanId := v;
     mChannel := mChannel i;
     mPskc := mPskc i;
     mSecurityPolicy := mSecurityPolicy i;
     mChannelMask := mChannelMask i;
     mComponents := mComponents i |}.

Definition with_mChannel (v : Z) (i : Info) : Info :=
  {| mActiveTimestamp := mActiveTimestamp i;
     mPendingTimestamp := mPendingTimestamp i;
     mMasterKey := mMasterKey i;
     mNetworkName := mNetworkName i;
     mExtendedPanId := mExtendedPanId i;
     mMeshLocalPrefix := mMeshLocalPrefix i;
     mDelay := mDelay i;
     mPanId := mPanId i;
     mChannel := v;
     mPskc := mPskc i;
     mSecurityPolicy := mSecurityPolicy i;
     mChannelMask := mChannelMask i;
     mComponents := mComponents i |}.

Definition with_mPskc (v : list byte) (i : Info) : Info :=
  {| mActiveTimestamp := mActiveTimestamp i;
     mPendingTimestamp := mPendingTimestamp i;
     mMasterKey := mMasterKey i;
     mNetworkName := mNetworkName i;
     mExtendedPanId := mExtendedPanId i;
     mMeshLocalPrefix := mMeshLocalPrefix i;
     mDelay := mDelay i;
     mPanId := mPanId i;
     mChannel := mChannel i;
     mPskc := v;
     mSecurityPolicy := mSecurityPolicy i;
     mChannelMask := mChannelMask i;
     mComponents := mComponents i |}.

Definition with_mSecurityPolicy (v : otSecurityPolicy) (i : Info) : Info :=
  {| mActiveTimestamp := mActiveTimestamp i;
     mPendingTimestamp := mPendingTimestamp i;
     mMasterKey := mMasterKey i;
     mNetworkName := mNetworkName i;
     mExtendedPanId := mExtendedPanId i;
     mMeshLocalPrefix := mMeshLocalPrefix i;
     mDelay := mDelay i;
     mPanId := mPanId i;
     mChannel := mChannel i;
     mPskc := mPskc i;
     mSecurityPolicy := v;
     mChannelMask := mChannelMask i;
     mComponents := mComponents i |}.

Definition with_mChannelMask (v : Z) (i : Info) : Info :=
  {| mActiveTimestamp := mActiveTimestamp i;
     mPendingTimestamp := mPendingTimestamp i;
     mMasterKey := mMasterKey i;
     mNetworkName := mNetworkName i;
     mExtendedPanId := mExtendedPanId i;
     mMeshLocalPrefix := mMeshLocalPrefix i;
     mDelay := mDelay i;
     mPanId := mPanId i;
     mChannel := mChannel i;
     mPskc := mPskc i;
     mSecurityPolicy := mSecurityPolicy i;
     mChannelMask := v;
     mComponents := mComponents i |}.

Definition with_mComponents (v : Components) (i : Info) : Info :=
  {| mActiveTimestamp := mActiveTimestamp i;
     mPendingTimestamp := mPendingTimestamp i;
     mMasterKey := mMasterKey i;
     mNetworkName := mNetworkName i;
     mExtendedPanId := mExtendedPanId i;
     mMeshLocalPrefix := mMeshLocalPrefix i;
     mDelay := mDelay i;
     mPanId := mPanId i;
     mChannel := mChannel i;
     mPskc := mPskc i;
     mSecurityPolicy := mSecurityPolicy i;
     mChannelMask := mChannelMask i;
     mComponents := v |}.

Definition IsActiveTimestampPresent (i : Info) : bool :=
  mIsActiveTimestampPresent (mComponents i).

Definition IsPendingTimestampPresent (i : Info) : bool :=
  mIsPendingTimestampPresent (mComponents i).

Definition IsMasterKeyPresent (i : Info) : bool :=
  mIsMasterKeyPresent (mComponents i).

Definition IsNetworkNamePresent (i : Info) : bool :=
  mIsNetworkNamePresent (mComponents i).

Definition IsExtendedPanIdPresent (i : Info) : bool :=
  mIsExtendedPanIdPresent (mComponents i).

Definition IsMeshLocalPrefixPresent (i : Info) : bool :=
  mIsMeshLocalPrefixPresent (mComponents i).

Definition IsDelayPresent (i : Info) : bool :=
  mIsDelayPresent (mComponents i).

Definition IsPanIdPresent (i : Info) : bool :=
  mIsPanIdPresent (mComponents i).

Definition IsChannelPresent (i : Info) : bool :=
  mIsChannelPresent (mComponents i).

Definition IsPskcPresent (i : Info) : bool :=
  mIsPskcPresent (mComponents i).

Definition IsSecurityPolicyPresent (i : Info) : bool :=
  mIsSecurityPolicyPresent (mComponents i).

Definition IsChannelMaskPresent (i : Info) : bool :=
  mIsChannelMaskPresent (mComponents i).

Definition GetActiveTimestamp (i : Info) : Z := mActiveTimestamp i.

Definition GetPendingTimestamp (i : Info) : Z := mPendingTimestamp i.

Definition GetMasterKey (i : Info) : list byte := mMasterKey i.

Definition GetNetworkName (i : Info) : NetworkName := mNetworkName i.

Definition GetExtendedPanId (i : Info) : list byte := mExtendedPanId i.

Definition GetMeshLocalPrefix (i : Info) : list byte := mMeshLocalPrefix i.

Definition GetDelay (i : Info) : Z := mDelay i.

Definition GetPanId (i : Info) : Z := mPanId i.

Definition GetChannel (i : Info) : Z := mChannel i.

Definition GetPskc (i : Info) : list byte := mPskc i.

Definition GetSecurityPolicy (i : Info) : otSecurityPolicy := mSecurityPolicy i.

Definition GetChannelMask (i : Info) : Z := mChannelMask i.

Definition SetActiveTimestamp (aTimestamp : Z) (i : Info) : Info :=
  let i' := with_mActiveTimestamp aTimestamp i in
  with_mComponents (with_mIsActiveTimestampPresent true (mComponents i')) i'.

Definition SetPendingTimestamp (aTimestamp : Z) (i : Info) : Info :=
  let i' := with_mPendingTimestamp aTimestamp i in
  with_mComponents (with_mIsPendingTimestampPresent true (mComponents i')) i'.

Definition SetMasterKey (aMasterKey : list byte) (i : Info) : Info :=
  let i' := with_mMasterKey aMasterKey i in
  with_mComponents (with_mIsMasterKeyPresent true (mComponents i')) i'.

(** [UpdateMasterKey]: the key is handed out to be written by the caller;
    the call itself marks it present. *)
Definition UpdateMasterKey (i : Info) : Info :=
  with_mComponents (with_mIsMasterKeyPresent true (mComponents i)) i.

Definition SetNetworkName (aNetworkNameData : NameData) (i : Info) : Info :=
  let i' := with_mNetworkName (NetworkName_Set aNetworkNameData (mNetworkName i)) i in
  with_mComponents (with_mIsNetworkNamePresent true (mComponents i')) i'.

Definition SetExtendedPanId (aExtendedPanId : list byte) (i : Info) : Info :=
  let i' := with_mExtendedPanId aExtendedPanId i in
  with_mComponents (with_mIsExtendedPanIdPresent true (mComponents i')) i'.

Definition SetMeshLocalPrefix (aMeshLocalPrefix : list byte) (i : Info) : Info :=
  let i' := with_mMeshLocalPrefix aMeshLocalPrefix i in
  with_mComponents (with_mIsMeshLocalPrefixPresent true (mComponents i')) i'.

Definition SetDelay (aDelay : Z) (i : Info) : Info :=
  let i' := with_mDelay aDelay i in
  with_mComponents (with_mIsDelayPresent true (mComponents i')) i'.

Definition SetPanId (aPanId : Z) (i : Info) : Info :=
  let i' := with_mPanId aPanId i in
  with_mComponents (with_mIsPanIdPresent true (mComponents i')) i'.

Definition SetChannel (aChannel : Z) (i : Info) : Info :=
  let i' := with_mChannel aChannel i in
  with_mComponents (with_mIsChannelPresent true (mComponents i')) i'.

Definition SetPskc (aPskc : list byte) (i : Info) : Info :=
  let i' := with_mPskc aPskc i in
  with_mComponents (with_mIsPskcPresent true (mComponents i')) i'.

Definition SetSecurityPolicy (aRotationTime aFlags : Z) (i : Info) : Info :=
  let i' :=
    with_mSecurityPolicy
      {| mRotationTime := aRotationTime; mFlags := aFlags |} i in
  with_mComponents (with_mIsSecurityPolicyPresent true (mComponents i')) i'.

Definition SetChannelMask (aChannelMask : Z) (i : Info) : Info :=
  let i' := with_mChannelMask aChannelMask i in
  with_mComponents (with_mIsChannelMaskPresent true (mComponents i')) i'.

(** ** A uniform view of the components *)

Inductive Component : Type :=
| cActiveTimestamp
| cPendingTimestamp
| cMasterKey
| cNetworkName
| cExtendedPanId
| cMeshLocalPrefix
| cDelay
| cPanId
| cChannel
| cPskc
| cSecurityPolicy
| cChannelMask
.

#[global] Instance Component_eq_decision : EqDecision Component.
Proof. solve_decision. Defined.

Inductive Value : Type :=
| VNum (z : Z)
| VBytes (b : list byte)
| VName (n : NetworkName)
| VPolicy (p : otSecurityPolicy).

Definition IsPresent (c : Component) (i : Info) : bool :=
  match c with
  | cActiveTimestamp => IsActiveTimestampPresent i
  | cPendingTimestamp => IsPendingTimestampPresent i
  | cMasterKey => IsMasterKeyPresent i
  | cNetworkName => IsNetworkNamePresent i
  | cExtendedPanId => IsExtendedPanIdPresent i
  | cMeshLocalPrefix => IsMeshLocalPrefixPresent i
  | cDelay => IsDelayPresent i
  | cPanId => IsPanIdPresent i
  | cChannel => IsChannelPresent i
  | cPskc => IsPskcPresent i
  | cSecurityPolicy => IsSecurityPolicyPresent i
  | cChannelMask => IsChannelMaskPresent i
  end.

Definition Get (c : Component) (i : Info) : Value :=
  match c with
  | cActiveTimestamp => VNum (GetActiveTimestamp i)
  | cPendingTimestamp => VNum (GetPendingTimestamp i)
  | cMasterKey => VBytes (GetMasterKey i)
  | cNetworkName => VName (GetNetworkName i)
  | cExtendedPanId => VBytes (GetExtendedPanId i)
  | cMeshLocalPrefix => VBytes (GetMeshLocalPrefix i)
  | cDelay => VNum (GetDelay i)
  | cPanId => VNum (GetPanId i)
  | cChannel => VNum (GetChannel i)
  | cPskc => VBytes (GetPskc i)
  | cSecurityPolicy => VPolicy (GetSecurityPolicy i)
  | cChannelMask => VNum (GetChannelMask i)
  end.

(** A call of one of the setters. *)
Inductive Call : Type :=
| CallSetActiveTimestamp (aTimestamp : Z)
| CallSetPendingTimestamp (aTimestamp : Z)
| CallSetMasterKey (aMasterKey : list byte)
| CallUpdateMasterKey
| CallSetNetworkName (aNetworkNameData : NameData)
| CallSetExtendedPanId (aExtendedPanId : list byte)
| CallSetMeshLocalPrefix (aMeshLocalPrefix : list byte)
| CallSetDelay (aDelay : Z)
| CallSetPanId (aPanId : Z)
| CallSetChannel (aChannel : Z)
| CallSetPskc (aPskc : list byte)
| CallSetSecurityPolicy (aRotationTime aFlags : Z)
| CallSetChannelMask (aChannelMask : Z).

Definition call (c : Call) (i : Info) : Info :=
  match c with
  | CallSetActiveTimestamp t => SetActiveTimestamp t i
  | CallSetPendingTimestamp t => SetPendingTimestamp t i
  | CallSetMasterKey k => SetMasterKey k i
  | CallUpdateMasterKey => UpdateMasterKey i
  | CallSetNetworkName d => SetNetworkName d i
  | CallSetExtendedPanId x => SetExtendedPanId x i
  | CallSetMeshLocalPrefix p => SetMeshLocalPrefix p i
  | CallSetDelay d => SetDelay d i
  | CallSetPanId p => SetPanId p i
  | CallSetChannel ch => SetChannel ch i
  | CallSetPskc k => SetPskc k i
  | CallSetSecurityPolicy r f => SetSecurityPolicy r f i
  | CallSetChannelMask mask => SetChannelMask mask i
  end.

Definition calls (cs : list Call) (i : Info) : Info :=
  foldl (fun i c => call c i) i cs.

(** The component a call is for. *)
Definition component_of (c : Call) : Component :=
  match c with
  | CallSetActiveTimestamp _ => cActiveTimestamp
  | CallSetPendingTimestamp _ => cPendingTimestamp
  | CallSetMasterKey _ => cMasterKey
  | CallUpdateMasterKey => cMasterKey
  | CallSetNetworkName _ => cNetworkName
  | CallSetExtendedPanId _ => cExtendedPanId
  | CallSetMeshLocalPrefix _ => cMeshLocalPrefix
  | CallSetDelay _ => cDelay
  | CallSetPanId _ => cPanId
  | CallSetChannel _ => cChannel
  | CallSetPskc _ => cPskc
  | CallSetSecurityPolicy _ _ => cSecurityPolicy
  | CallSetChannelMask _ => cChannelMask
  end.

(** The value a call leaves in its component, given the value before. *)
Definition written (c : Call) (before : Value) : Value :=
  match c with
  | CallSetActiveTimestamp t => VNum t
  | CallSetPendingTimestamp t => VNum t
  | CallSetMasterKey k => VBytes k
  | CallUpdateMasterKey => before
  | CallSetNetworkName d =>
      match before with
      | VName n => VName (NetworkName_Set d n)
      | _ => before
      end
  | CallSetExtendedPanId x => VBytes x
  | CallSetMeshLocalPrefix p => VBytes p
  | CallSetDelay d => VNum d
  | CallSetPanId p => VNum p
  | CallSetChannel ch => VNum ch
  | CallSetPskc k => VBytes k
  | CallSetSecurityPolicy r f =>
      VPolicy {| mRotationTime := r; mFlags := f |}
  | CallSetChannelMask mask => VNum mask
  end.

End Info.

End Dataset.

(** * A concrete set of collaborators

    An executable instance of [Collaborators], used to run the handlers on
    concrete requests. *)
Module Reference.

(** Modelled from the spec: [MulticastListenersTable] (its source is not
    part of the translation unit).  It "stores (address, expiry-time) pairs"
    with "capacity and duplicate semantics": addresses are unique, "an add
    of an existing address refreshes its expiry", an add to a full table is
    "capacity exhausted", and an "invalid argument" is an address the table
    does not accept, here one that is not an IPv6 multicast address. *)
Record Table : Type := {
  capacity : nat;
  listeners : list (Address * TimeMilli)
}.

Definition IsMulticast (a : Address) : bool :=
  match a with
  | b :: _ => Byte.eqb b xff
  | [] => false
  end.

Definition Add (a : Address) (expire : TimeMilli) (t : Table)
  : otError * Table :=
  if negb (IsMulticast a) then (OT_ERROR_INVALID_ARGS, t)
  else if bool_decide (a ∈ (listeners t).*1) then
    (OT_ERROR_NONE,
     {| capacity := capacity t;
        listeners :=
          (fun l : Address * TimeMilli =>
             if decide (l.1 = a) then (a, expire) else l) <$> listeners t |})
  else if bool_decide (length (listeners t) < capacity t)%nat then
    (OT_ERROR_NONE,
     {| capacity := capacity t; listeners := listeners t ++ [(a, expire)] |})
  else (OT_ERROR_NO_BUFS, t).

Definition Remove (a : Address) (t : Table) : Table :=
  {| capacity := capacity t;
     listeners :=
       filter (fun l : Address * TimeMilli => l.1 ≠ a) (listeners t) |}.

(** "removing all entries whose expiry time is at or before now" *)
Definition Expire (now : TimeMilli) (t : Table) : Table :=
  {| capacity := capacity t;
     listeners :=
       filter (fun l : Address * TimeMilli => now < l.2) (listeners t) |}.

Definition Clear (t : Table) : Table :=
  {| capacity := capacity t; listeners := [] |}.

Definition Count (t : Table) : nat := length (listeners t).

(** Modelled from the spec: [NdProxyTable] (its source is not part of the
    translation unit).  It "stores (target address identifier, mesh-local
    identifier, owning-router locator, last-transaction-time) tuples";
    "targetIid is unique among active entries"; registering a target that
    is present "with a different mesh-local identifier yields Duplicate",
    with the same one it is a refresh. *)
Record Proxy : Type := {
  targetIid : InterfaceIdentifier;
  meshLocalIid : InterfaceIdentifier;
  ownerLocator : ShortAddress;
  lastTransactionTime : option Z
}.

Record ProxyTable : Type := {
  proxyCapacity : nat;
  proxies : list Proxy
}.

Definition Register (target ml : InterfaceIdentifier) (rloc16 : ShortAddress)
  (time : option Z) (t : ProxyTable) : otError * ProxyTable :=
  let entry :=
    {| targetIid := target; meshLocalIid := ml; ownerLocator := rloc16;
       lastTransactionTime := time |} in
  match find (fun p => bool_decide (targetIid p = target)) (proxies t) with
  | Some p =>
      if bool_decide (meshLocalIid p = ml) then
        (OT_ERROR_NONE,
         {| proxyCapacity := proxyCapacity t;
            proxies :=
              (fun q => if decide (targetIid q = target) then entry else q)
                <$> proxies t |})
      else (OT_ERROR_DUPLICATED, t)
  | None =>
      if bool_decide (length (proxies t) < proxyCapacity t)%nat then
        (OT_ERROR_NONE,
         {| proxyCapacity := proxyCapacity t;
            proxies := proxies t ++ [entry] |})
      else (OT_ERROR_NO_BUFS, t)
  end.

Definition IsRegistered (target : InterfaceIdentifier) (t : ProxyTable)
  : bool :=
  bool_decide (target ∈ targetIid <$> proxies t).

(** Modelled from the spec: the address resolver, "a synchronous query
    against a routing cache" that "returns a definite resolved/unresolved
    answer"; the cache keeps the entry last used in front. *)
Definition Cache : Type := list (Address * ShortAddress).

Definition Resolve (a : Address) (aAllowAddressQuery : bool) (c : Cache)
  : otError * ShortAddress * Cache :=
  match find (fun e : Address * ShortAddress => bool_decide (e.1 = a)) c with
  | Some e =>
      (OT_ERROR_NONE, e.2,
       e :: filter (fun e' : Address * ShortAddress => e'.1 ≠ a) c)
  | None => (OT_ERROR_NOT_FOUND, 0, c)
  end.

(** Modelled from the spec: the backbone transport, of which only its
    being started or stopped matters. *)
Definition Start (running : bool) : otError * bool :=
  (if running then OT_ERROR_ALREADY else OT_ERROR_NONE, true).

Definition Stop (running : bool) : otError * bool := (OT_ERROR_NONE, false).

(** Modelled from the spec: the interface identifier of an address (its
    low 8 bytes), the unspecified identifier (all zero), and the "source
    address's interface identifier" that "encodes a routing-locator",
    taken here as [0000:00ff:fe00:xxxx] with the locator in the last 16
    bits. *)
Definition Iid (a : Address) : InterfaceIdentifier := drop 8 a.

Definition IsZero (iid : InterfaceIdentifier) : bool :=
  forallb (fun b => Byte.eqb b x00) iid.

Definition byteZ (b : byte) : Z := Z.of_N (Byte.to_N b).

Definition IsRloc (iid : InterfaceIdentifier) : bool :=
  match iid with
  | [b0; b1; b2; b3; b4; b5; _; _] =>
      bool_decide ([b0; b1; b2; b3; b4; b5] = [x00; x00; x00; xff; xfe; x00])
  | _ => false
  end.

Definition Locator (iid : InterfaceIdentifier) : ShortAddress :=
  match iid with
  | [_; _; _; _; _; _; hi; lo] => byteZ hi * 256 + byteZ lo
  | _ => 0
  end.

(** The constants are those of the Thread 1.2 headers: between 1 and 15
    addresses per message, timeouts between 300 s and [0x7fffffff / 1000]
    s, a one-second expiry poll, CoAP codes 0.00 and 2.01. *)
#[global] Instance collaborators : Collaborators := {|
  kIPv6AddressesNumMin := 1;
  kIPv6AddressesNumMax := 15;
  kMlrTimeoutMin := 300;
  kMlrTimeoutMax := 2147483;
  kTimerInterval := 1000;
  kCodeEmpty := 0;
  kCodeResponseMin := 65;
  MulticastListenersTable := Table;
  MulticastListenersTable_Add := Add;
  MulticastListenersTable_Remove := Remove;
  MulticastListenersTable_Expire := Expire;
  MulticastListenersTable_Clear := Clear;
  MulticastListenersTable_Count := Count;
  NdProxyTable := ProxyTable;
  NdProxyTable_Register := Register;
  NdProxyTable_IsRegistered := IsRegistered;
  AddressResolver := Cache;
  AddressResolver_Resolve := Resolve;
  BackboneTmfAgent := bool;
  BackboneTmfAgent_Start := Start;
  BackboneTmfAgent_Stop := Stop;
  GetIid := Iid;
  IsUnspecified := IsZero;
  IsRoutingLocator := IsRloc;
  GetLocator := Locator
|}.

(** Sample data: multicast groups [ff04::n], a unicast address, a domain
    prefix [fd00:7d03:7d03:7d03::/64], mesh nodes. *)
Definition group (n : byte) : Address :=
  [xff; x04; x00; x00; x00; x00; x00; x00;
   x00; x00; x00; x00; x00; x00; x00; n].

Definition unicast (n : byte) : Address :=
  [xfd; x00; x7d; x03; x7d; x03; x7d; x03;
   x00; x00; x00; x00; x00; x00; x00; n].

Definition rloc (hi lo : byte) : Address :=
  [xfd; xde; xad; x00; xbe; xef; x00; x00;
   x00; x00; x00; xff; xfe; x00; hi; lo].

Definition InDomain (a : Address) : bool :=
  bool_decide (take 8 a = [xfd; x00; x7d; x03; x7d; x03; x7d; x03]).

Definition env (primary : bool) : Env :=
  {| GetNow := 5000;
     GetState := if primary then OT_BACKBONE_ROUTER_STATE_PRIMARY
                 else OT_BACKBONE_ROUTER_STATE_SECONDARY;
     IsPrimary := primary;
     mMlrTimeout := 3600;
     IsDomainUnicast := InDomain;
     GetCommissionerSessionId := Some 7;
     GetRloc16 := 0x5800 |}.

Definition disabled : Env :=
  {| GetNow := 5000;
     GetState := OT_BACKBONE_ROUTER_STATE_DISABLED;
     IsPrimary := false;
     mMlrTimeout := 3600;
     IsDomainUnicast := InDomain;
     GetCommissionerSessionId := None;
     GetRloc16 := 0x5800 |}.

Definition manager (cap : nat) (ls : list (Address * TimeMilli))
  (ps : list Proxy) : Manager :=
  {| mMulticastListenerRegistration := true;
     mDuaRegistration := true;
     mNdProxyTable := {| proxyCapacity := 4; proxies := ps |};
     mMulticastListenersTable := {| capacity := cap; listeners := ls |};
     mTimer := Some 6000;
     mBackboneTmfAgent := true;
     mDuaResponseTargetMlIid := [];
     mDuaResponseStatus := 0;
     mMlrResponseStatus := kMlrSuccess;
     mDuaResponseIsSpecified := false;
     mMlrResponseIsSpecified := false;
     mAddressResolver := [] |}.

(** An MLR request: optional session id, optional timeout, the value of the
    IPv6 Addresses TLV. *)
Definition mlr_req (session timeout : option Z) (value : option (list byte))
  : Message :=
  {| IsConfirmablePostRequest := true;
     tlvCommissionerSessionId := session;
     tlvTimeout := timeout;
     tlvIPv6Addresses := value;
     tlvTarget := None;
     tlvMeshLocalEid := None;
     tlvLastTransactionTime := None |}.

Definition dua_req (target : Address) (ml : InterfaceIdentifier) : Message :=
  {| IsConfirmablePostRequest := true;
     tlvCommissionerSessionId := None;
     tlvTimeout := None;
     tlvIPv6Addresses := None;
     tlvTarget := Some target;
     tlvMeshLocalEid := Some ml;
     tlvLastTransactionTime := None |}.

Definition from (a : Address) : MessageInfo := {| GetPeerAddr := a |}.

End Reference.

(** * The address loop, as a fold over the requested addresses *)

Section Registration.
Context `{Collaborators}.

Lemma in_range_true (i n : Z) :
  0 <= i < n → (0 <=? i) && (i <? n) = true.
Proof. intros. apply andb_true_iff. split; [apply Z.leb_le|apply Z.ltb_lt]; lia. Qed.

Lemma shared_array_length Fl Sl :
  (length Fl + length Sl ≤ Z.to_nat kIPv6AddressesNumMax)%nat →
  length (shared_array Fl Sl) = Z.to_nat kIPv6AddressesNumMax.
Proof.
  intros Hle. unfold shared_array.
  rewrite !length_app, !length_fmap, length_replicate, length_reverse. lia.
Qed.

Lemma shared_array_empty : array_new kIPv6AddressesNumMax = shared_array [] [].
Proof.
  unfold array_new, shared_array. simpl.
  rewrite app_nil_r. f_equal. lia.
Qed.

Lemma array_write_failed Fl Sl a :
  (length Fl + length Sl < Z.to_nat kIPv6AddressesNumMax)%nat →
  array_write (shared_array Fl Sl) (Z.of_nat (length Fl)) a
  = Ok (shared_array (Fl ++ [a]) Sl).
Proof.
  intros Hlt. unfold array_write.
  rewrite shared_array_length by lia.
  rewrite in_range_true by lia.
  f_equal. unfold shared_array. rewrite Nat2Z.id.
  rewrite insert_app_r_alt by (rewrite length_fmap; lia).
  rewrite length_fmap, Nat.sub_diag.
  replace (Z.to_nat kIPv6AddressesNumMax - length Fl - length Sl)%nat
    with (S (Z.to_nat kIPv6AddressesNumMax - length (Fl ++ [a]) - length Sl))
    by (rewrite length_app; simpl; lia).
  simpl. rewrite fmap_app. simpl. rewrite <- app_assoc. reflexivity.
Qed.

Lemma array_write_succeeded Fl Sl a :
  (length Fl + length Sl < Z.to_nat kIPv6AddressesNumMax)%nat →
  0 <= kIPv6AddressesNumMax →
  array_write (shared_array Fl Sl)
    (kIPv6AddressesNumMax - Z.of_nat (S (length Sl))) a
  = Ok (shared_array Fl (Sl ++ [a])).
Proof.
  intros Hlt Hmax. unfold array_write.
  rewrite shared_array_length by lia.
  rewrite in_range_true by lia.
  f_equal. unfold shared_array.
  set (n := (Z.to_nat kIPv6AddressesNumMax - length Fl - length (Sl ++ [a]))%nat).
  replace (Z.to_nat kIPv6AddressesNumMax - length Fl - length Sl)%nat
    with (n + 1)%nat by (subst n; rewrite length_app; simpl; lia).
  replace (Z.to_nat (kIPv6AddressesNumMax - Z.of_nat (S (length Sl))))
    with (length Fl + n)%nat by (subst n; rewrite length_app; simpl; lia).
  rewrite insert_app_r_alt by (rewrite length_fmap; lia).
  rewrite length_fmap.
  replace (length Fl + n - length Fl)%nat with n by lia.
  rewrite replicate_add. simpl. rewrite <- app_assoc.
  rewrite insert_app_r_alt by (rewrite length_replicate; lia).
  rewrite length_replicate, Nat.sub_diag. simpl.
  rewrite reverse_app. simpl. reflexivity.
Qed.

Lemma array_slice_middle pre L post :
  array_slice (pre ++ (Some <$> L) ++ post) (Z.of_nat (length pre)) (length L)
  = Ok L.
Proof.
  revert pre. induction L as [|a L IH]; intros pre; simpl; [reflexivity|].
  unfold array_read.
  rewrite in_range_true by (rewrite length_app; simpl; lia).
  rewrite Nat2Z.id, lookup_app_r, Nat.sub_diag by lia. simpl.
  specialize (IH (pre ++ [Some a])).
  rewrite length_app, <- app_assoc in IH. simpl in IH.
  replace (Z.of_nat (length pre) + 1) with (Z.of_nat (length pre + 1)) by lia.
  change (list_fmap Address (option Address) Some L) with (Some <$> L).
  rewrite IH. reflexivity.
Qed.

Lemma array_slice_failed Fl Sl :
  array_slice (shared_array Fl Sl) 0 (length Fl) = Ok Fl.
Proof. apply (array_slice_middle [] Fl). Qed.

Lemma array_slice_succeeded Fl Sl :
  (length Fl + length Sl ≤ Z.to_nat kIPv6AddressesNumMax)%nat →
  0 <= kIPv6AddressesNumMax →
  array_slice (shared_array Fl Sl)
    (kIPv6AddressesNumMax - Z.of_nat (length Sl)) (length Sl)
  = Ok (reverse Sl).
Proof.
  intros Hle Hmax. unfold shared_array.
  pose proof (array_slice_middle
    ((Some <$> Fl)
     ++ replicate (Z.to_nat kIPv6AddressesNumMax - length Fl - length Sl) None)
    (reverse Sl) []) as Hm.
  rewrite app_nil_r, <- app_assoc in Hm.
  rewrite length_reverse, length_app, length_fmap, length_replicate in Hm.
  replace (kIPv6AddressesNumMax - Z.of_nat (length Sl))
    with (Z.of_nat (length Fl
            + (Z.to_nat kIPv6AddressesNumMax - length Fl - length Sl)))
    by lia.
  exact Hm.
Qed.

(** *** One address *)

Lemma failed_cons a e rs : failed ((a, e) :: rs) = failed [(a, e)] ++ failed rs.
Proof.
  unfold failed. rewrite !filter_cons, filter_nil. simpl.
  destruct (decide (e ≠ OT_ERROR_NONE)); reflexivity.
Qed.

Lemma succeeded_cons a e rs :
  succeeded ((a, e) :: rs) = succeeded [(a, e)] ++ succeeded rs.
Proof.
  unfold succeeded. rewrite !filter_cons, filter_nil. simpl.
  destruct (decide (e = OT_ERROR_NONE)); reflexivity.
Qed.

Lemma failed_succeeded_length rs :
  (length (failed rs) + length (succeeded rs) = length rs)%nat.
Proof.
  induction rs as [|[a e] rs IH]; [reflexivity|].
  rewrite failed_cons, succeeded_cons, !length_app.
  assert (length (failed [(a, e)]) + length (succeeded [(a, e)]) = 1)%nat.
  { unfold failed, succeeded. rewrite !filter_cons, !filter_nil. simpl.
    destruct (decide (e = OT_ERROR_NONE)), (decide (e ≠ OT_ERROR_NONE));
      simpl; try lia; contradiction. }
  simpl length at 5. lia.
Qed.

Lemma mlr_register_add timeout expireTime a s Fl Sl e t' :
  timeout ≠ 0 →
  ConstantsInRange →
  MulticastListenersTable_Add a expireTime (lpTable s) = (e, t') →
  documented e →
  lpAddresses s = shared_array Fl Sl →
  lpFailedAddressNum s = Z.of_nat (length Fl) →
  lpSuccessAddressNum s = Z.of_nat (length Sl) →
  (length Fl + length Sl < Z.to_nat kIPv6AddressesNumMax)%nat →
  mlr_register timeout expireTime a s
  = Ok {| lpTable := t';
          lpStatus := merge_status (lpStatus s) e;
          lpAddresses :=
            shared_array (Fl ++ failed [(a, e)]) (Sl ++ succeeded [(a, e)]);
          lpFailedAddressNum := Z.of_nat (length (Fl ++ failed [(a, e)]));
          lpSuccessAddressNum :=
            Z.of_nat (length (Sl ++ succeeded [(a, e)])) |}.
Proof.
  intros Ht [_ Hmax] Hadd Hdoc Harr Hf Hs Hlt.
  unfold mlr_register. rewrite (proj2 (Z.eqb_neq _ _) Ht), Hadd.
  rewrite Harr, Hf, Hs.
  assert (Hu : ∀ n : nat, (n < Z.to_nat kIPv6AddressesNumMax)%nat →
               uint8 (Z.of_nat n + 1) = Z.of_nat (S n)).
  { intros n Hn. unfold uint8. rewrite Z.mod_small; lia. }
  destruct Hdoc as [-> | [-> | ->]]; simpl;
    unfold failed, succeeded; rewrite !filter_cons, !filter_nil; simpl;
    rewrite ?app_nil_r.
  - rewrite Hu by lia. rewrite array_write_succeeded by lia. simpl.
    rewrite length_app. simpl. do 2 f_equal. lia.
  - rewrite array_write_failed by lia. simpl.
    rewrite Hu by lia. rewrite length_app. simpl. do 2 f_equal. lia.
  - rewrite array_write_failed by lia. simpl.
    rewrite Hu by lia. rewrite length_app. simpl. do 2 f_equal. lia.
Qed.

(** *** The loop *)

Lemma Read_chunk value (k : nat) :
  (16 * k + 16 ≤ length value)%nat →
  Read value (Z.of_nat (16 * k)) = Some (take 16 (drop (16 * k) value)).
Proof.
  intros Hle. unfold Read. rewrite Nat2Z.id.
  rewrite bool_decide_eq_true_2; [reflexivity|].
  rewrite length_take, length_drop. lia.
Qed.

Lemma uint16_next (k : nat) :
  (k < 255)%nat →
  uint16 (Z.of_nat (16 * k) + sizeof_Address) = Z.of_nat (16 * (k + 1)).
Proof.
  intros Hk. unfold uint16, sizeof_Address. rewrite Z.mod_small; lia.
Qed.

(** With a non-zero timeout, [j] iterations from offset [16 k] add the next
    [j] addresses, extend the failed list at the front of the array and the
    success list at its back, and merge the outcomes into the status. *)
Lemma mlr_loop_add timeout expireTime value :
  timeout ≠ 0 →
  ConstantsInRange →
  AddReturnsDocumented →
  ∀ (j k fuel : nat) s Fl Sl,
    (16 * (k + j) ≤ length value)%nat →
    (k + j ≤ Z.to_nat kIPv6AddressesNumMax)%nat →
    (j ≤ fuel)%nat →
    lpAddresses s = shared_array Fl Sl →
    lpFailedAddressNum s = Z.of_nat (length Fl) →
    lpSuccessAddressNum s = Z.of_nat (length Sl) →
    (length Fl + length Sl ≤ k)%nat →
    mlr_loop fuel value (Z.of_nat (16 * (k + j))) timeout expireTime
      (Z.of_nat (16 * k)) s
    = let rs := AddEach expireTime (chunks j (drop (16 * k) value))
                  (lpTable s) in
      Ok {| lpTable := rs.2;
            lpStatus := foldl merge_status (lpStatus s) rs.1.*2;
            lpAddresses :=
              shared_array (Fl ++ failed rs.1) (Sl ++ succeeded rs.1);
            lpFailedAddressNum := Z.of_nat (length (Fl ++ failed rs.1));
            lpSuccessAddressNum :=
              Z.of_nat (length (Sl ++ succeeded rs.1)) |}.
Proof.
  intros Ht Hconst Hdoc j.
  induction j as [|j IH]; intros k fuel s Fl Sl Hlen Hmax Hfuel Harr Hf Hs Hk.
  - replace (k + 0)%nat with k by lia.
    destruct fuel; simpl; rewrite Z.ltb_irrefl;
      unfold failed, succeeded; rewrite !filter_nil; simpl;
      rewrite !app_nil_r, <- Harr, <- Hf, <- Hs; destruct s; reflexivity.
  - destruct fuel as [|fuel]; [lia|].
    cbn [mlr_loop chunks AddEach].
    rewrite (proj2 (Z.ltb_lt _ _)) by lia.
    rewrite Read_chunk by lia.
    destruct (MulticastListenersTable_Add (take 16 (drop (16 * k) value))
                expireTime (lpTable s)) as [e t'] eqn:Hadd.
    rewrite (mlr_register_add _ _ _ _ Fl Sl e t') by
      (try done; try lia;
       specialize (Hdoc (take 16 (drop (16 * k) value)) expireTime (lpTable s));
       rewrite Hadd in Hdoc; exact Hdoc).
    cbn [mbind Result_bind].
    destruct Hconst as [Hmin Hrange].
    rewrite uint16_next by lia.
    replace (k + S j)%nat with ((k + 1) + j)%nat by lia.
    rewrite drop_drop.
    replace (16 * k + 16)%nat with (16 * (k + 1))%nat by lia.
    rewrite (IH (k + 1)%nat fuel _ (Fl ++ failed [(take 16 (drop (16 * k) value), e)])
               (Sl ++ succeeded [(take 16 (drop (16 * k) value), e)]));
      try reflexivity; try lia; try (split; assumption).
    + cbn [lpTable lpStatus].
      destruct (AddEach expireTime (chunks j (drop (16 * (k + 1)) value)) t')
        as [rs t''] eqn:Hrs.
      cbn [fst snd fmap list_fmap foldl].
      rewrite (failed_cons _ _ rs), (succeeded_cons _ _ rs), !app_assoc.
      reflexivity.
    + rewrite !length_app.
      pose proof (failed_succeeded_length [(take 16 (drop (16 * k) value), e)]).
      simpl length in *. lia.
Qed.

(** With timeout zero, the iterations remove the addresses and leave every
    other variable as it is. *)
Lemma mlr_loop_remove expireTime value :
  ∀ (j k fuel : nat) s,
    (16 * (k + j) ≤ length value)%nat →
    (k + j ≤ 255)%nat →
    (j ≤ fuel)%nat →
    mlr_loop fuel value (Z.of_nat (16 * (k + j))) 0 expireTime
      (Z.of_nat (16 * k)) s
    = Ok {| lpTable := RemoveEach (chunks j (drop (16 * k) value)) (lpTable s);
            lpStatus := lpStatus s;
            lpAddresses := lpAddresses s;
            lpFailedAddressNum := lpFailedAddressNum s;
            lpSuccessAddressNum := lpSuccessAddressNum s |}.
Proof.
  induction j as [|j IH]; intros k fuel s Hlen Hmax Hfuel.
  - replace (k + 0)%nat with k by lia.
    destruct fuel; simpl; rewrite Z.ltb_irrefl; destruct s; reflexivity.
  - destruct fuel as [|fuel]; [lia|].
    cbn [mlr_loop chunks].
    rewrite (proj2 (Z.ltb_lt _ _)) by lia.
    rewrite Read_chunk by lia.
    unfold mlr_register at 1. cbn [Z.eqb mbind Result_bind].
    rewrite uint16_next by lia.
    replace (k + S j)%nat with ((k + 1) + j)%nat by lia.
    rewrite IH by lia. cbn [lpTable lpStatus lpAddresses lpFailedAddressNum
                            lpSuccessAddressNum].
    rewrite drop_drop.
    replace (16 * k + 16)%nat with (16 * (k + 1))%nat by lia.
    reflexivity.
Qed.

(** *** The handler *)

Lemma mlr_validate_proceed env aMessage m value timeout :
  mlr_validate env aMessage m = MlrProceed value timeout →
  tlvIPv6Addresses aMessage = Some value
  ∧ ∃ n : nat, length value = (16 * n)%nat ∧ Z.of_nat n <= kIPv6AddressesNumMax.
Proof.
  unfold mlr_validate, sizeof_Address. intros Hv.
  repeat case_match; try discriminate; simplify_eq;
    (split; [reflexivity|]);
    repeat match goal with
           | Hb : negb _ = false |- _ => apply negb_false_iff in Hb
           end;
    match goal with
    | Hm : (_ mod 16 =? 0) = true, Hd : (_ / 16 <=? _) = true |- _ =>
        apply Z.eqb_eq in Hm; apply Z.leb_le in Hd;
        exists (Z.to_nat (Z.of_nat (length value) / 16));
        pose proof (Z.div_mod (Z.of_nat (length value)) 16 ltac:(lia));
        pose proof (Z.div_pos (Z.of_nat (length value)) 16 ltac:(lia) ltac:(lia));
        split; lia
    end.
Qed.

(** Without a Commissioner Session ID TLV the loop is entered with the
    timeout of the leader's configuration. *)
Lemma mlr_validate_default env aMessage m value :
  IsConfirmablePostRequest aMessage = true →
  mMlrResponseIsSpecified m = false →
  IsPrimary env = true →
  tlvCommissionerSessionId aMessage = None →
  tlvIPv6Addresses aMessage = Some value →
  Z.of_nat (length value) mod sizeof_Address = 0 →
  Z.of_nat (length value) / sizeof_Address <= kIPv6AddressesNumMax →
  mlr_validate env aMessage m = MlrProceed value (mMlrTimeout env).
Proof.
  intros Hconf Hhook Hprim Hsid Hvalue Hmod Hcount. unfold mlr_validate.
  rewrite Hconf, Hhook, Hprim, Hsid, Hvalue, Hmod.
  rewrite (proj2 (Z.leb_le _ _) Hcount). reflexivity.
Qed.

Lemma chunks_length (n : nat) value : length (chunks n value) = n.
Proof.
  revert value. induction n as [|n IH]; intros value; simpl;
    [|rewrite IH]; reflexivity.
Qed.

Lemma RequestAddresses_chunks value (n : nat) :
  length value = (16 * n)%nat → RequestAddresses value = chunks n value.
Proof.
  intros Hlen. unfold RequestAddresses. rewrite Hlen.
  rewrite Nat.mul_comm, Nat.div_mul by lia. reflexivity.
Qed.

Lemma AddEach_addresses expireTime addrs t :
  (AddEach expireTime addrs t).1.*1 = addrs.
Proof.
  revert t. induction addrs as [|a addrs IH]; intros t; [reflexivity|].
  simpl. destruct (MulticastListenersTable_Add a expireTime t) as [e t'].
  specialize (IH t'). destruct (AddEach expireTime addrs t') as [rs t''].
  simpl in *. f_equal. exact IH.
Qed.

(** A request that leaves before the loop: a response exactly when
    [error] is [OT_ERROR_NONE], and nothing for the backbone. *)
Lemma HandleMulticastListenerRegistration_exit env aMessage aMessageInfo m
  error status m' :
  mlr_validate env aMessage m = MlrExit error status m' →
  HandleMulticastListenerRegistration env aMessage aMessageInfo m
  = Ok (m', if decide (error = OT_ERROR_NONE)
            then [MlrResponse status []] else []).
Proof.
  intros Hv. unfold HandleMulticastListenerRegistration, mlr_body.
  rewrite Hv. cbn.
  destruct (decide (error = OT_ERROR_NONE)); reflexivity.
Qed.

(** A request with effective timeout zero removes its addresses. *)
Lemma HandleMulticastListenerRegistration_remove env aMessage aMessageInfo m
  value :
  ConstantsInRange →
  mlr_validate env aMessage m = MlrProceed value 0 →
  HandleMulticastListenerRegistration env aMessage aMessageInfo m
  = Ok (set_mMulticastListenersTable
          (RemoveEach (RequestAddresses value) (mMulticastListenersTable m)) m,
        [MlrResponse kMlrSuccess []]).
Proof.
  intros [_ Hmax] Hv.
  destruct (mlr_validate_proceed _ _ _ _ _ Hv) as [_ (n & Hlen & Hn)].
  unfold HandleMulticastListenerRegistration, mlr_body. rewrite Hv.
  pose proof (mlr_loop_remove (mlr_expireTime env 0) value n 0 (length value)
                (mlr_loop_init m) ltac:(lia) ltac:(lia) ltac:(lia)) as Hloop.
  replace (16 * (0 + n))%nat with (length value) in Hloop by lia.
  change (Z.of_nat (16 * 0)) with 0 in Hloop.
  rewrite Hloop. rewrite drop_0, (RequestAddresses_chunks _ n Hlen).
  reflexivity.
Qed.

(** A request with a non-zero effective timeout: the table is the one left
    by adding the addresses in request order, the response carries the
    merged status and the failed addresses, and the notification, if any
    address was added, carries the added ones from the back of the
    array. *)
Lemma HandleMulticastListenerRegistration_add env aMessage aMessageInfo m
  value effective :
  ConstantsInRange →
  AddReturnsDocumented →
  mlr_validate env aMessage m = MlrProceed value effective →
  effective ≠ 0 →
  let rs := AddEach (mlr_expireTime env effective) (RequestAddresses value)
              (mMulticastListenersTable m) in
  HandleMulticastListenerRegistration env aMessage aMessageInfo m
  = Ok (set_mMulticastListenersTable rs.2 m,
        MlrResponse (foldl merge_status kMlrSuccess rs.1.*2) (failed rs.1)
        :: match succeeded rs.1 with
           | [] => []
           | _ :: _ =>
               [BackboneMlrNotification (reverse (succeeded rs.1)) effective]
           end).
Proof.
  intros Hconst Hdoc Hv Ht rs.
  destruct (mlr_validate_proceed _ _ _ _ _ Hv) as [_ (n & Hlen & Hn)].
  pose proof Hconst as [Hmin Hmax].
  unfold HandleMulticastListenerRegistration, mlr_body. rewrite Hv.
  pose proof (mlr_loop_add effective (mlr_expireTime env effective) value
                Ht Hconst Hdoc n 0 (length value) (mlr_loop_init m) [] []
                ltac:(lia) ltac:(lia) ltac:(lia) shared_array_empty
                eq_refl eq_refl ltac:(simpl; lia)) as Hloop.
  replace (16 * (0 + n))%nat with (length value) in Hloop by lia.
  change (Z.of_nat (16 * 0)) with 0 in Hloop.
  rewrite drop_0, <- (RequestAddresses_chunks _ n Hlen) in Hloop.
  cbn [mlr_loop_init lpTable lpStatus] in Hloop. cbv zeta in Hloop.
  fold rs in Hloop. rewrite Hloop. clear Hloop.
  assert (Hcount : (length (failed rs.1) + length (succeeded rs.1) ≤ n)%nat).
  { pose proof (failed_succeeded_length rs.1) as Hfs.
    pose proof (AddEach_addresses (mlr_expireTime env effective)
                  (RequestAddresses value) (mMulticastListenersTable m)) as Ha.
    fold rs in Ha. apply (f_equal length) in Ha.
    rewrite length_fmap, (RequestAddresses_chunks _ n Hlen) in Ha.
    rewrite chunks_length in Ha. lia. }
  cbn [mbind Result_bind app error status addresses failedAddressNum
       successAddressNum timeout fst snd lpTable lpStatus
       lpAddresses lpFailedAddressNum lpSuccessAddressNum].
  destruct (decide (OT_ERROR_NONE = OT_ERROR_NONE)) as [_|]; [|done].
  unfold SendMulticastListenerRegistrationResponse.
  assert (Hresp :
    (if 0 <? Z.of_nat (length (failed rs.1))
     then array_slice (shared_array (failed rs.1) (succeeded rs.1)) 0
            (Z.to_nat (Z.of_nat (length (failed rs.1))))
          ≫= (fun failed0 =>
                Ok [MlrResponse (foldl merge_status kMlrSuccess rs.1.*2)
                      failed0])
     else Ok [MlrResponse (foldl merge_status kMlrSuccess rs.1.*2) []])
    = Ok [MlrResponse (foldl merge_status kMlrSuccess rs.1.*2)
            (failed rs.1)]).
  { rewrite Nat2Z.id, array_slice_failed.
    destruct (failed rs.1); reflexivity. }
  rewrite Hresp. clear Hresp. cbn [mbind Result_bind].
  unfold SendBackboneMulticastListenerRegistration.
  destruct (succeeded rs.1) as [|a l] eqn:Hs; [reflexivity|].
  rewrite (proj2 (Z.ltb_lt _ _)) by (simpl length; lia).
  replace ((kIPv6AddressesNumMin <=? Z.of_nat (length (a :: l)))
           && (Z.of_nat (length (a :: l)) <=? kIPv6AddressesNumMax))
    with true
    by (symmetry; apply andb_true_iff; split; apply Z.leb_le;
        simpl length in *; lia).
  rewrite Nat2Z.id, array_slice_succeeded by (simpl length in *; lia).
  reflexivity.
Qed.

Lemma mlr_outcomes_exit env aMessage m error status m' :
  mlr_validate env aMessage m = MlrExit error status m' →
  mlr_outcomes env aMessage m = [].
Proof. unfold mlr_outcomes. intros ->. reflexivity. Qed.

Lemma mlr_outcomes_remove env aMessage m value :
  mlr_validate env aMessage m = MlrProceed value 0 →
  mlr_outcomes env aMessage m = [].
Proof. unfold mlr_outcomes. intros ->. reflexivity. Qed.

Lemma mlr_outcomes_add env aMessage m value effective :
  mlr_validate env aMessage m = MlrProceed value effective →
  effective ≠ 0 →
  mlr_outcomes env aMessage m
  = (AddEach (mlr_expireTime env effective) (RequestAddresses value)
       (mMulticastListenersTable m)).1.
Proof.
  unfold mlr_outcomes. intros -> Hne.
  rewrite (proj2 (Z.eqb_neq _ _) Hne). reflexivity.
Qed.

(** Every request: the handler returns, what it sends is a response (or
    nothing) followed by the notification, and the notification is there
    exactly when an address was added; it lists the added addresses last
    first. *)
Lemma HandleMulticastListenerRegistration_sent env aMessage aMessageInfo m :
  ConstantsInRange →
  AddReturnsDocumented →
  ∃ m' response t,
    HandleMulticastListenerRegistration env aMessage aMessageInfo m
    = Ok (m',
          response
          ++ match succeeded (mlr_outcomes env aMessage m) with
             | [] => []
             | _ :: _ =>
                 [BackboneMlrNotification
                    (reverse (succeeded (mlr_outcomes env aMessage m))) t]
             end)
    ∧ ∀ x, x ∈ response → ∃ st fl, x = MlrResponse st fl.
Proof.
  intros Hconst Hdoc.
  destruct (mlr_validate env aMessage m) as [e st m'|value effective] eqn:Hv.
  - exists m', (if decide (e = OT_ERROR_NONE) then [MlrResponse st []] else []), 0.
    rewrite (mlr_outcomes_exit _ _ _ _ _ _ Hv). cbn [succeeded filter fmap].
    rewrite app_nil_r. split.
    + apply HandleMulticastListenerRegistration_exit. exact Hv.
    + intros x Hx. destruct (decide (e = OT_ERROR_NONE)).
      * apply list_elem_of_singleton in Hx. eauto.
      * inversion Hx.
  - destruct (decide (effective = 0)) as [->|Hne].
    + eexists _, [MlrResponse kMlrSuccess []], 0.
      rewrite (mlr_outcomes_remove _ _ _ _ Hv). cbn [succeeded filter fmap].
      split.
      * apply HandleMulticastListenerRegistration_remove; eassumption.
      * intros x Hx. apply list_elem_of_singleton in Hx. eauto.
    + eexists _, [MlrResponse _ _], effective.
      rewrite (mlr_outcomes_add _ _ _ _ _ Hv Hne). split.
      * apply (HandleMulticastListenerRegistration_add _ _ _ _ _ _
                 Hconst Hdoc Hv Hne).
      * intros x Hx. apply list_elem_of_singleton in Hx. eauto.
Qed.

(** *** The status is sticky *)

Lemma merge_status_sticky status es :
  status ≠ kMlrSuccess → foldl merge_status status es = status.
Proof.
  revert status. induction es as [|e es IH]; intros status Hne; [reflexivity|].
  simpl. assert (merge_status status e = status) as ->.
  { unfold merge_status. destruct e; try reflexivity;
      destruct (decide (status = kMlrSuccess)); congruence. }
  apply IH. exact Hne.
Qed.

Lemma merge_status_all_success es :
  Forall (eq OT_ERROR_NONE) es → foldl merge_status kMlrSuccess es = kMlrSuccess.
Proof.
  induction 1 as [|e es <- _ IH]; [reflexivity|]. simpl. exact IH.
Qed.

Lemma merge_status_first pre e post :
  Forall (eq OT_ERROR_NONE) pre →
  foldl merge_status kMlrSuccess (pre ++ e :: post)
  = foldl merge_status (merge_status kMlrSuccess e) post.
Proof.
  induction 1 as [|e' pre <- _ IH]; [reflexivity|]. simpl. exact IH.
Qed.

(** *** The states of the loop *)

Lemma mlr_register_invariant effective expireTime a s (k : nat) :
  ConstantsInRange →
  AddReturnsDocumented →
  (k < Z.to_nat kIPv6AddressesNumMax)%nat →
  mlr_loop_invariant k s →
  ∃ s', mlr_register effective expireTime a s = Ok s'
        ∧ mlr_loop_invariant (S k) s'.
Proof.
  intros Hconst Hdoc Hk (Fl & Sl & Harr & Hf & Hs & Hle).
  destruct (decide (effective = 0)) as [->|Hne].
  - eexists. split; [reflexivity|].
    exists Fl, Sl. cbn. repeat split; try assumption. lia.
  - destruct (MulticastListenersTable_Add a expireTime (lpTable s))
      as [e t'] eqn:Hadd.
    eexists. split.
    + apply (mlr_register_add _ _ _ _ Fl Sl e t'); try assumption; try lia.
      specialize (Hdoc a expireTime (lpTable s)). rewrite Hadd in Hdoc.
      exact Hdoc.
    + exists (Fl ++ failed [(a, e)]), (Sl ++ succeeded [(a, e)]).
      cbn [lpAddresses lpFailedAddressNum lpSuccessAddressNum].
      repeat split. rewrite !length_app.
      pose proof (failed_succeeded_length [(a, e)]) as Hone.
      change (length [(a, e)]) with 1%nat in Hone. lia.
Qed.

Lemma mlr_loop_reaches_invariant value (n : nat) effective expireTime m
  offset s :
  ConstantsInRange →
  AddReturnsDocumented →
  (n ≤ Z.to_nat kIPv6AddressesNumMax)%nat →
  mlr_loop_reaches value (Z.of_nat (16 * n)) effective expireTime
    (mlr_loop_init m) offset s →
  ∃ k : nat, offset = Z.of_nat (16 * k) ∧ (k ≤ n)%nat ∧ mlr_loop_invariant k s.
Proof.
  intros Hconst Hdoc Hn Hreach.
  induction Hreach as [|offset s a s' _ IH Hlt Hread Hreg].
  - exists 0%nat. split; [reflexivity|]. split; [lia|].
    exists [], []. split; [apply shared_array_empty|].
    split; [reflexivity|]. split; [reflexivity|]. simpl. lia.
  - destruct IH as (k & -> & Hk & Hinv).
    assert (k < n)%nat as Hkn by lia.
    destruct (mlr_register_invariant effective expireTime a s k Hconst Hdoc
                ltac:(lia) Hinv) as (s'' & Hreg' & Hinv').
    rewrite Hreg in Hreg'. injection Hreg' as <-.
    exists (S k). destruct Hconst as [_ Hmax].
    rewrite uint16_next by lia.
    split; [f_equal; lia|]. split; [lia|exact Hinv'].
Qed.

Lemma mlr_loop_final_reaches value addressesLength effective expireTime entry :
  ∀ (fuel : nat) offset s s',
    mlr_loop_reaches value addressesLength effective expireTime entry offset s →
    mlr_loop fuel value addressesLength effective expireTime offset s = Ok s' →
    ∃ offset',
      mlr_loop_reaches value addressesLength effective expireTime entry
        offset' s'
      ∧ ¬ offset' < addressesLength.
Proof.
  induction fuel as [|fuel IH]; intros offset s s' Hreach Hrun;
    cbn [mlr_loop] in Hrun;
    destruct (offset <? addressesLength) eqn:Hlt;
    try discriminate;
    try (injection Hrun as <-; exists offset; split;
         [exact Hreach|apply Z.ltb_ge in Hlt; lia]).
  apply Z.ltb_lt in Hlt.
  destruct (Read value offset) as [a|] eqn:Hread; [|discriminate].
  destruct (mlr_register effective expireTime a s) as [s1|] eqn:Hreg;
    [|discriminate].
  cbn [mbind Result_bind] in Hrun.
  apply (IH (uint16 (offset + sizeof_Address)) s1 s'); [|exact Hrun].
  eapply reaches_next; eassumption.
Qed.

End Registration.

(** * Properties of the registration protocol *)

Section Claims.
Context `{Collaborators}.

(** ** Order of the forwarded addresses *)

(** C1, as the code has it.  For every MLR request the handler returns;
    the addresses carried by a backbone notification are the successfully
    registered addresses in the reverse of the order in which they appear
    in the request's IPv6 Addresses TLV (the success list is filled from
    the back of the array and sent from its lowest cell); such a
    notification is sent whenever an address was registered; and the adds
    themselves are made in the order of the TLV. *)
Theorem forwarding_reverses_request_order env aMessage aMessageInfo m :
  ConstantsInRange →
  AddReturnsDocumented →
  ∃ m' sent,
    HandleMulticastListenerRegistration env aMessage aMessageInfo m
    = Ok (m', sent)
    ∧ (∀ addrs t,
         BackboneMlrNotification addrs t ∈ sent →
         addrs = reverse (succeeded (mlr_outcomes env aMessage m)))
    ∧ (succeeded (mlr_outcomes env aMessage m) ≠ [] →
       ∃ t, BackboneMlrNotification
              (reverse (succeeded (mlr_outcomes env aMessage m))) t ∈ sent)
    ∧ (∀ value,
         tlvIPv6Addresses aMessage = Some value →
         mlr_outcomes env aMessage m = []
         ∨ (mlr_outcomes env aMessage m).*1 = RequestAddresses value).
Proof.
  intros Hconst Hdoc.
  destruct (HandleMulticastListenerRegistration_sent env aMessage aMessageInfo
              m Hconst Hdoc) as (m' & response & t & Hrun & Hresp).
  eexists _, _. split; [exact Hrun|]. split; [|split].
  - intros addrs t' Hin. apply elem_of_app in Hin as [Hin|Hin].
    + apply Hresp in Hin as (st & fl & Heq). discriminate.
    + destruct (succeeded (mlr_outcomes env aMessage m)); [inversion Hin|].
      apply list_elem_of_singleton in Hin. congruence.
  - intros Hne. exists t. apply elem_of_app. right.
    destruct (succeeded (mlr_outcomes env aMessage m)); [done|].
    apply list_elem_of_singleton. reflexivity.
  - intros value Hvalue. unfold mlr_outcomes.
    destruct (mlr_validate env aMessage m) as [|value' effective] eqn:Hv;
      [left; reflexivity|].
    destruct (mlr_validate_proceed _ _ _ _ _ Hv) as [Hvalue' _].
    assert (value' = value) as -> by congruence.
    destruct (effective =? 0); [left; reflexivity|right].
    apply AddEach_addresses.
Qed.

(** ** Malformed address lists *)


(** ** Status of the response *)

(** C3.  For every MLR request that reaches the address loop with a
    non-zero effective timeout, whatever the table answers to each add: the
    handler returns and sends a response whose status is [kMlrSuccess] if
    every add succeeded, [kMlrInvalid] if the first add that did not
    succeed was refused as an invalid argument, and [kMlrNoResources] if
    it was refused for lack of room, whatever the outcomes after it. *)
Theorem first_failure_sets_status env aMessage aMessageInfo m value effective :
  ConstantsInRange →
  AddReturnsDocumented →
  mlr_validate env aMessage m = MlrProceed value effective →
  effective ≠ 0 →
  ∃ m' st failedAddresses notification,
    HandleMulticastListenerRegistration env aMessage aMessageInfo m
    = Ok (m', MlrResponse st failedAddresses :: notification)
    ∧ (Forall (eq OT_ERROR_NONE) (mlr_outcomes env aMessage m).*2 →
       st = kMlrSuccess)
    ∧ (∀ pre e post,
         (mlr_outcomes env aMessage m).*2 = pre ++ e :: post →
         Forall (eq OT_ERROR_NONE) pre →
         (e = OT_ERROR_INVALID_ARGS → st = kMlrInvalid)
         ∧ (e = OT_ERROR_NO_BUFS → st = kMlrNoResources)).
Proof.
  intros Hconst Hdoc Hv Hne.
  pose proof (HandleMulticastListenerRegistration_add env aMessage
                aMessageInfo m value effective Hconst Hdoc Hv Hne) as Hrun.
  cbv zeta in Hrun. rewrite <- (mlr_outcomes_add _ _ _ _ _ Hv Hne) in Hrun.
  eexists _, _, _, _. split; [exact Hrun|]. split.
  - apply merge_status_all_success.
  - intros pre e post Hes Hpre. rewrite Hes, merge_status_first by exact Hpre.
    split; intros ->; apply merge_status_sticky; discriminate.
Qed.

(** ** Timeout *)



(** ** Requests to a router that is not primary *)


(** ** DUA requests from a source that is not a routing locator *)

(** C6.  A DUA registration request whose source address does not carry a
    routing-locator interface identifier is dropped whatever else the
    message holds: nothing is sent, and the manager, with its proxy table,
    is left as it was. *)
Theorem dua_from_non_locator_is_dropped env aMessage aMessageInfo m :
  IsRoutingLocator (GetIid (GetPeerAddr aMessageInfo)) = false →
  HandleDuaRegistration env aMessage aMessageInfo m = Ok (m, []).
Proof.
  intros Hrloc. unfold HandleDuaRegistration, dua_body. rewrite Hrloc.
  reflexivity.
Qed.

(** ** Forward decision *)

(** C7.  For every destination address the query answers [true] exactly
    when the router is primary, the address is a domain unicast address,
    its interface identifier is not registered in the proxy table, and
    the resolver either fails or resolves it to the router's own RLOC16;
    the query leaves the proxy table, the multicast listeners table and
    the timer as they were. *)
Theorem forward_decision env aAddress m :
  ((ShouldForwardDuaToBackbone env aAddress m).1 = true
   ↔ IsPrimary env = true
     ∧ IsDomainUnicast env aAddress = true
     ∧ NdProxyTable_IsRegistered (GetIid aAddress) (mNdProxyTable m) = false
     ∧ ((AddressResolver_Resolve aAddress false (mAddressResolver m)).1.1
        ≠ OT_ERROR_NONE
        ∨ (AddressResolver_Resolve aAddress false (mAddressResolver m)).1.2
          = GetRloc16 env))
  ∧ mNdProxyTable (ShouldForwardDuaToBackbone env aAddress m).2
    = mNdProxyTable m
  ∧ mMulticastListenersTable (ShouldForwardDuaToBackbone env aAddress m).2
    = mMulticastListenersTable m
  ∧ mTimer (ShouldForwardDuaToBackbone env aAddress m).2 = mTimer m.
Proof.
  unfold ShouldForwardDuaToBackbone.
  destruct (IsPrimary env); cbn [negb];
    [|repeat split; try discriminate; intros (? & _); discriminate].
  destruct (IsDomainUnicast env aAddress); cbn [negb];
    [|repeat split; try discriminate; intros (_ & ? & _); discriminate].
  destruct (NdProxyTable_IsRegistered (GetIid aAddress) (mNdProxyTable m));
    [repeat split; try discriminate; intros (_ & _ & ? & _); discriminate|].
  destruct (AddressResolver_Resolve aAddress false (mAddressResolver m))
    as [[e rloc16] resolver].
  cbn [fst snd].
  destruct (decide (e ≠ OT_ERROR_NONE)) as [He|He].
  - rewrite bool_decide_eq_true_2 by exact He. cbn.
    repeat split. left. exact He.
  - rewrite bool_decide_eq_false_2 by exact He.
    destruct (decide (rloc16 = GetRloc16 env)) as [Hr|Hr].
    + rewrite bool_decide_eq_true_2 by exact Hr. cbn.
      repeat split. right. exact Hr.
    + rewrite bool_decide_eq_false_2 by exact Hr. cbn.
      repeat split; try discriminate.
      intros (_ & _ & _ & [?|?]); contradiction.
Qed.

(** ** Disabling the Backbone Router *)

(** C8.  When the state-changed event is handled while the Backbone Router
    is disabled, and [Clear] empties a table: afterwards the multicast
    listeners table is the cleared one and has no entry, the timer is
    stopped, and the proxy table is the one before the event. *)
Theorem disable_clears_listeners_only env aEvents m :
  Contains aEvents kEventThreadBackboneRouterStateChanged = true →
  GetState env = OT_BACKBONE_ROUTER_STATE_DISABLED →
  (∀ t, MulticastListenersTable_Count (MulticastListenersTable_Clear t)
        = 0%nat) →
  mMulticastListenersTable (HandleNotifierEvents env aEvents m)
  = MulticastListenersTable_Clear (mMulticastListenersTable m)
  ∧ MulticastListenersTable_Count
      (mMulticastListenersTable (HandleNotifierEvents env aEvents m)) = 0%nat
  ∧ Timer_IsRunning (mTimer (HandleNotifierEvents env aEvents m)) = false
  ∧ mNdProxyTable (HandleNotifierEvents env aEvents m) = mNdProxyTable m.
Proof.
  intros Hev Hstate Hclear. unfold HandleNotifierEvents.
  rewrite Hev.
  destruct (decide (GetState env = OT_BACKBONE_ROUTER_STATE_DISABLED));
    [|contradiction].
  cbn. repeat split. apply Hclear.
Qed.

(** ** When a notification is sent *)


(** ** The shared array *)

(** C10.  For every MLR request that passes the validation of its address
    list, at every evaluation of the loop's condition the failed count
    plus the success count is at most [kIPv6AddressesNumMax], and the
    array holds the failed addresses from its first cell on, the added
    ones up to its last cell, and unwritten cells in between, so the two
    lists do not overlap; every iteration that is entered completes (its
    read and its array write are in bounds and its assertion holds); the
    handler returns; and a notification it sends carries between
    [kIPv6AddressesNumMin] and [kIPv6AddressesNumMax] addresses. *)
Theorem shared_array_is_safe env aMessage aMessageInfo m value effective :
  ConstantsInRange →
  AddReturnsDocumented →
  mlr_validate env aMessage m = MlrProceed value effective →
  (∀ offset s,
     mlr_loop_reaches value (Z.of_nat (length value)) effective
       (mlr_expireTime env effective) (mlr_loop_init m) offset s →
     (0 <= lpFailedAddressNum s
      ∧ 0 <= lpSuccessAddressNum s
      ∧ lpFailedAddressNum s + lpSuccessAddressNum s <= kIPv6AddressesNumMax)
     ∧ (∃ Fl Sl,
          lpAddresses s = shared_array Fl Sl
          ∧ lpFailedAddressNum s = Z.of_nat (length Fl)
          ∧ lpSuccessAddressNum s = Z.of_nat (length Sl))
     ∧ (offset < Z.of_nat (length value) →
        ∃ address s',
          Read value offset = Some address
          ∧ mlr_register effective (mlr_expireTime env effective) address s
            = Ok s'))
  ∧ ∃ m' sent,
      HandleMulticastListenerRegistration env aMessage aMessageInfo m
      = Ok (m', sent)
      ∧ ∀ addrs t,
          BackboneMlrNotification addrs t ∈ sent →
          kIPv6AddressesNumMin <= Z.of_nat (length addrs)
          <= kIPv6AddressesNumMax.
Proof.
  intros Hconst Hdoc Hv.
  destruct (mlr_validate_proceed _ _ _ _ _ Hv) as [_ (n & Hlen & Hn)].
  split.
  - intros offset s Hreach. rewrite Hlen in Hreach |- *.
    destruct (mlr_loop_reaches_invariant value n effective
                (mlr_expireTime env effective) m offset s Hconst Hdoc
                ltac:(lia) Hreach) as (k & -> & Hk & Hinv).
    pose proof Hinv as (Fl & Sl & Harr & Hf & Hs & Hle).
    split; [lia|]. split; [exists Fl, Sl; done|].
    intros Hlt. assert (k < n)%nat as Hkn by lia.
    exists (take 16 (drop (16 * k) value)).
    destruct (mlr_register_invariant effective (mlr_expireTime env effective)
                (take 16 (drop (16 * k) value)) s k Hconst Hdoc ltac:(lia)
                Hinv) as (s' & Hreg & _).
    exists s'. split; [apply Read_chunk; lia|exact Hreg].
  - destruct (HandleMulticastListenerRegistration_sent env aMessage
                aMessageInfo m Hconst Hdoc)
      as (m' & response & t & Hrun & Hresp).
    eexists _, _. split; [exact Hrun|].
    intros addrs t' Hin. apply elem_of_app in Hin as [Hin|Hin].
    + apply Hresp in Hin as (st & fl & Heq). discriminate.
    + destruct (succeeded (mlr_outcomes env aMessage m)) as [|a l] eqn:Hs;
        [inversion Hin|].
      apply list_elem_of_singleton in Hin. injection Hin as -> _.
      rewrite length_reverse.
      assert (length (a :: l) ≤ n)%nat as Hbound.
      { rewrite <- Hs. unfold mlr_outcomes. rewrite Hv.
        destruct (effective =? 0); [simpl; lia|].
        pose proof (failed_succeeded_length
                      (AddEach (mlr_expireTime env effective)
                         (RequestAddresses value)
                         (mMulticastListenersTable m)).1) as Hfs.
        pose proof (AddEach_addresses (mlr_expireTime env effective)
                      (RequestAddresses value) (mMulticastListenersTable m))
          as Ha.
        apply (f_equal length) in Ha. rewrite length_fmap in Ha.
        pose proof (chunks_length n value) as Hc.
        rewrite <- (RequestAddresses_chunks _ n Hlen) in Hc. lia. }
      destruct Hconst as [Hmin Hmax]. simpl length in *. lia.
Qed.

End Claims.

(** * The properties on concrete requests *)

(** The concrete collaborators meet the assumptions of the theorems. *)
Lemma Reference_constants_in_range : ConstantsInRange.
Proof. unfold ConstantsInRange. cbn. lia. Qed.


Lemma Reference_Add_documented : AddReturnsDocumented.
Proof.
  intros a expireTime t. unfold documented. cbn. unfold Reference.Add.
  repeat case_match; cbn; auto.
Qed.

Lemma Reference_Clear_empty (t : Reference.Table) :
  Reference.Count (Reference.Clear t) = 0%nat.
Proof. reflexivity. Qed.

(** Two groups are registered; the notification lists the second one
    first. *)
Lemma two_groups_run :
  HandleMulticastListenerRegistration (Reference.env true)
    (Reference.mlr_req None None
       (Some (Reference.group x01 ++ Reference.group x02)))
    (Reference.from (Reference.rloc x58 x01)) (Reference.manager 4 [] [])
  = Ok (Reference.manager 4
          [(Reference.group x01, 3605000); (Reference.group x02, 3605000)] [],
        [MlrResponse kMlrSuccess [];
         BackboneMlrNotification [Reference.group x02; Reference.group x01]
           3600]).
Proof. vm_compute. reflexivity. Qed.

(** C1, refuted as stated: for the request with addresses [ff04::1] and
    [ff04::2], both registered, the notification carries [ff04::2] then
    [ff04::1], not the order of the request. *)
Lemma forwarding_order_counterexample :
  ¬ forwarding_preserves_request_order (Reference.env true)
      (Reference.mlr_req None None
         (Some (Reference.group x01 ++ Reference.group x02)))
      (Reference.from (Reference.rloc x58 x01)) (Reference.manager 4 [] []).
Proof.
  intros Hclaim.
  specialize (Hclaim _ _ [Reference.group x02; Reference.group x01] 3600
                two_groups_run).
  assert (Hin : BackboneMlrNotification
                  [Reference.group x02; Reference.group x01] 3600
                ∈ [MlrResponse kMlrSuccess [];
                   BackboneMlrNotification
                     [Reference.group x02; Reference.group x01] 3600]).
  { apply list_elem_of_further, list_elem_of_here. }
  apply Hclaim in Hin. vm_compute in Hin. discriminate Hin.
Qed.

Lemma forwarding_reverses_request_order_witness :
  ∃ m' sent,
    HandleMulticastListenerRegistration (Reference.env true)
      (Reference.mlr_req None None
         (Some (Reference.group x01 ++ Reference.group x02)))
      (Reference.from (Reference.rloc x58 x01)) (Reference.manager 4 [] [])
    = Ok (m', sent)
    ∧ ∀ addrs t,
        BackboneMlrNotification addrs t ∈ sent →
        addrs = [Reference.group x02; Reference.group x01].
Proof.
  destruct (forwarding_reverses_request_order (Reference.env true)
              (Reference.mlr_req None None
                 (Some (Reference.group x01 ++ Reference.group x02)))
              (Reference.from (Reference.rloc x58 x01))
              (Reference.manager 4 [] [])
              Reference_constants_in_range Reference_Add_documented)
    as (m' & sent & Hrun & Horder & _).
  exists m', sent. split; [exact Hrun|].
  intros addrs t Hin. apply (Horder addrs t Hin).
Defined.



(** A table with room for two entries: of five addresses, the second is
    not multicast and the last two find the table full. *)
Lemma first_failure_sets_status_witness :
  ∃ m' failedAddresses notification,
    HandleMulticastListenerRegistration (Reference.env true)
      (Reference.mlr_req None None
         (Some (Reference.group x01 ++ Reference.unicast x09
                ++ Reference.group x02 ++ Reference.group x03
                ++ Reference.group x04)))
      (Reference.from (Reference.rloc x58 x01)) (Reference.manager 2 [] [])
    = Ok (m', MlrResponse kMlrInvalid failedAddresses :: notification).
Proof.
  destruct (first_failure_sets_status (Reference.env true)
              (Reference.mlr_req None None
                 (Some (Reference.group x01 ++ Reference.unicast x09
                        ++ Reference.group x02 ++ Reference.group x03
                        ++ Reference.group x04)))
              (Reference.from (Reference.rloc x58 x01))
              (Reference.manager 2 [] [])
              (Reference.group x01 ++ Reference.unicast x09
               ++ Reference.group x02 ++ Reference.group x03
               ++ Reference.group x04)
              3600
              Reference_constants_in_range Reference_Add_documented
              eq_refl ltac:(discriminate))
    as (m' & st & fl & ntf & Hrun & _ & Hfirst).
  destruct (Hfirst [OT_ERROR_NONE] OT_ERROR_INVALID_ARGS
              [OT_ERROR_NONE; OT_ERROR_NO_BUFS; OT_ERROR_NO_BUFS]
              eq_refl ltac:(repeat constructor)) as [Hinvalid _].
  exists m', fl, ntf. rewrite <- (Hinvalid eq_refl). exact Hrun.
Defined.


(** The sentinel [UINT32_MAX] is refused and nothing changes. *)
Lemma timeout_sentinel_run :
  HandleMulticastListenerRegistration (Reference.env true)
    (Reference.mlr_req (Some 7) (Some UINT32_MAX) (Some (Reference.group x01)))
    (Reference.from (Reference.rloc x58 x01)) (Reference.manager 4 [] [])
  = Ok (Reference.manager 4 [] [], [MlrResponse kMlrNoPersistent []]).
Proof. vm_compute. reflexivity. Qed.


Lemma dua_from_non_locator_is_dropped_witness :
  HandleDuaRegistration (Reference.env true)
    (Reference.dua_req (Reference.unicast x01) [x01])
    (Reference.from (Reference.unicast x02)) (Reference.manager 4 [] [])
  = Ok (Reference.manager 4 [] [], []).
Proof.
  apply (dua_from_non_locator_is_dropped (Reference.env true)
           (Reference.dua_req (Reference.unicast x01) [x01])
           (Reference.from (Reference.unicast x02))
           (Reference.manager 4 [] [])).
  reflexivity.
Defined.

Lemma disable_clears_listeners_only_witness :
  Reference.Count
    (mMulticastListenersTable
       (HandleNotifierEvents Reference.disabled
          [kEventThreadBackboneRouterStateChanged]
          (Reference.manager 4 [(Reference.group x01, 9000)]
             [{| Reference.targetIid := [x01];
                 Reference.meshLocalIid := [x02];
                 Reference.ownerLocator := 0x5801;
                 Reference.lastTransactionTime := None |}])))
  = 0%nat.
Proof.
  apply (disable_clears_listeners_only Reference.disabled
           [kEventThreadBackboneRouterStateChanged]
           (Reference.manager 4 [(Reference.group x01, 9000)]
              [{| Reference.targetIid := [x01];
                  Reference.meshLocalIid := [x02];
                  Reference.ownerLocator := 0x5801;
                  Reference.lastTransactionTime := None |}])
           eq_refl eq_refl Reference_Clear_empty).
Defined.


Lemma shared_array_is_safe_witness :
  ∃ m' sent,
    HandleMulticastListenerRegistration (Reference.env true)
      (Reference.mlr_req None None
         (Some (Reference.group x01 ++ Reference.unicast x09
                ++ Reference.group x02 ++ Reference.group x03
                ++ Reference.group x04)))
      (Reference.from (Reference.rloc x58 x01)) (Reference.manager 2 [] [])
    = Ok (m', sent)
    ∧ ∀ addrs t,
        BackboneMlrNotification addrs t ∈ sent →
        1 <= Z.of_nat (length addrs) <= 15.
Proof.
  destruct (shared_array_is_safe (Reference.env true)
              (Reference.mlr_req None None
                 (Some (Reference.group x01 ++ Reference.unicast x09
                        ++ Reference.group x02 ++ Reference.group x03
                        ++ Reference.group x04)))
              (Reference.from (Reference.rloc x58 x01))
              (Reference.manager 2 [] [])
              (Reference.group x01 ++ Reference.unicast x09
               ++ Reference.group x02 ++ Reference.group x03
               ++ Reference.group x04)
              3600
              Reference_constants_in_range Reference_Add_documented eq_refl)
    as (_ & m' & sent & Hrun & Hcount).
  exists m', sent. split; [exact Hrun|exact Hcount].
Defined.

(** The query on a domain address nobody has registered, at the primary
    router. *)
Lemma forward_decision_witness :
  (ShouldForwardDuaToBackbone (Reference.env true) (Reference.unicast x01)
     (Reference.manager 4 [] [])).1 = true.
Proof.
  apply (forward_decision (Reference.env true) (Reference.unicast x01)
           (Reference.manager 4 [] [])).
  repeat split; try reflexivity. left. discriminate.
Defined.

(** * Further properties of the manager *)

Section Further.
Context `{Collaborators}.

(** ** What an MLR request makes the handler send *)

Lemma mlr_validate_cases env aMessage m :
  match mlr_validate env aMessage m with
  | MlrExit e st m' =>
      (m' = m ∨ m' = set_mMlrResponseIsSpecified false m)
      ∧ ((e = OT_ERROR_PARSE
          ∧ (IsConfirmablePostRequest aMessage = false
             ∨ tlvIPv6Addresses aMessage = None
               ∧ mMlrResponseIsSpecified m = false
               ∧ IsPrimary env = true
               ∧ ¬ session_mismatch env aMessage))
         ∨ (e = OT_ERROR_NONE
            ∧ IsConfirmablePostRequest aMessage = true
            ∧ (mMlrResponseIsSpecified m = true
               ∨ IsPrimary env = false
               ∨ session_mismatch env aMessage
               ∨ is_Some (tlvIPv6Addresses aMessage))))
  | MlrProceed value effective =>
      IsConfirmablePostRequest aMessage = true
      ∧ tlvIPv6Addresses aMessage = Some value
  end.
Proof.
  unfold mlr_validate, session_mismatch.
  repeat case_match; simplify_eq;
    repeat match goal with
           | Hb : bool_decide _ = true |- _ => apply bool_decide_eq_true_1 in Hb
           | Hb : bool_decide _ = false |- _ =>
               apply bool_decide_eq_false_1 in Hb
           | Hb : negb _ = true |- _ => apply negb_true_iff in Hb
           | Hb : negb _ = false |- _ => apply negb_false_iff in Hb
           end;
    try (split; congruence);
    (split; [auto|]);
    first
      [ left; split; [reflexivity|]; first [left; congruence|right];
        repeat split; try congruence;
        intros (id & Hid & Hne); congruence
      | right; split; [reflexivity|]; split; [congruence|];
        first
          [ left; congruence
          | right; left; congruence
          | right; right; left; eexists; split; [reflexivity|assumption]
          | right; right; right; eexists; reflexivity ] ].
Qed.

Lemma HandleMulticastListenerRegistration_body env aMessage aMessageInfo m
  m' sent :
  HandleMulticastListenerRegistration env aMessage aMessageInfo m
  = Ok (m', sent) →
  ∃ l, mlr_body env aMessage m = Ok (l, m').
Proof.
  unfold HandleMulticastListenerRegistration. intros Hrun.
  destruct (mlr_body env aMessage m) as [[l m1]|] eqn:Hbody; [|discriminate].
  cbn [mbind Result_bind] in Hrun.
  repeat match type of Hrun with
         | mbind _ ?r = _ =>
             destruct r; [cbn [mbind Result_bind] in Hrun|discriminate]
         end.
  injection Hrun as <- _. exists l. reflexivity.
Qed.

Lemma mlr_body_manager env aMessage m l m' :
  mlr_body env aMessage m = Ok (l, m') →
  m' = m
  ∨ m' = set_mMlrResponseIsSpecified false m
  ∨ ∃ t, m' = set_mMulticastListenersTable t m.
Proof.
  unfold mlr_body. intros Hbody.
  pose proof (mlr_validate_cases env aMessage m) as Hcases.
  destruct (mlr_validate env aMessage m) as [e st m1|value effective].
  - injection Hbody as _ <-. destruct Hcases as [[->| ->] _]; auto.
  - destruct (mlr_loop _ _ _ _ _ _ _) as [s|]; [|discriminate].
    injection Hbody as _ <-. right. right. eexists. reflexivity.
Qed.

(** X1.  Handling an MLR request changes nothing of the manager but the
    multicast listeners table and the flag of the pre-armed MLR response:
    the proxy table, the timer, the registration of the two resources, the
    backbone agent, the resolver, the stored test statuses and the DUA hook
    are as before. *)
Theorem mlr_request_footprint env aMessage aMessageInfo m m' sent :
  HandleMulticastListenerRegistration env aMessage aMessageInfo m
  = Ok (m', sent) →
  mNdProxyTable m' = mNdProxyTable m
  ∧ mTimer m' = mTimer m
  ∧ mMulticastListenerRegistration m' = mMulticastListenerRegistration m
  ∧ mDuaRegistration m' = mDuaRegistration m
  ∧ mBackboneTmfAgent m' = mBackboneTmfAgent m
  ∧ mAddressResolver m' = mAddressResolver m
  ∧ mMlrResponseStatus m' = mMlrResponseStatus m
  ∧ mDuaResponseIsSpecified m' = mDuaResponseIsSpecified m
  ∧ mDuaResponseStatus m' = mDuaResponseStatus m
  ∧ mDuaResponseTargetMlIid m' = mDuaResponseTargetMlIid m.
Proof.
  intros Hrun.
  destruct (HandleMulticastListenerRegistration_body _ _ _ _ _ _ Hrun)
    as [l Hbody].
  destruct (mlr_body_manager _ _ _ _ _ Hbody) as [->|[->|[t ->]]];
    repeat split.
Qed.



(** ** The response to a request that reaches the loop *)

Lemma AddEach_documented expireTime addrs t :
  AddReturnsDocumented →
  Forall documented (AddEach expireTime addrs t).1.*2.
Proof.
  intros Hdoc. revert t.
  induction addrs as [|a addrs IH]; intros t; [constructor|].
  simpl. pose proof (Hdoc a expireTime t) as Ha.
  destruct (MulticastListenersTable_Add a expireTime t) as [e t'].
  specialize (IH t'). destruct (AddEach expireTime addrs t') as [rs t''].
  constructor; assumption.
Qed.

Lemma merged_status_and_failed rs :
  Forall documented rs.*2 →
  (failed rs = [] ∧ foldl merge_status kMlrSuccess rs.*2 = kMlrSuccess)
  ∨ (failed rs ≠ []
     ∧ (foldl merge_status kMlrSuccess rs.*2 = kMlrInvalid
        ∨ foldl merge_status kMlrSuccess rs.*2 = kMlrNoResources)).
Proof.
  induction rs as [|[a e] rs IH]; intros Hdoc; [left; split; reflexivity|].
  apply Forall_cons in Hdoc as [He Hdoc]. specialize (IH Hdoc).
  rewrite failed_cons. cbn [fmap list_fmap snd foldl]. cbn [snd] in He.
  destruct He as [->|[->| ->]].
  - change (failed [(a, OT_ERROR_NONE)]) with (@nil Address).
    exact IH.
  - change (failed [(a, OT_ERROR_INVALID_ARGS)]) with [a].
    right. split; [discriminate|]. left.
    apply merge_status_sticky. discriminate.
  - change (failed [(a, OT_ERROR_NO_BUFS)]) with [a].
    right. split; [discriminate|]. right.
    apply merge_status_sticky. discriminate.
Qed.

Lemma failed_succeeded_partition (rs : list (Address * otError)) :
  failed rs ++ succeeded rs ≡ₚ rs.*1.
Proof.
  unfold failed, succeeded. rewrite <- fmap_app. apply fmap_Permutation.
  rewrite (comm (++)).
  apply (filter_app_complement
           (fun r : Address * otError => r.2 = OT_ERROR_NONE)).
Qed.

(** X4.  For every MLR request that reaches the address loop with a
    non-zero effective timeout: the table is the one left by adding the
    requested addresses in order; the response lists the addresses whose
    add did not succeed, in the order of the request; its status is
    [kMlrSuccess] exactly when that list is empty, and otherwise
    [kMlrInvalid] or [kMlrNoResources]; and every requested address is
    either listed in the response or was added. *)
Theorem mlr_response_lists_failed_addresses env aMessage aMessageInfo m
  value effective :
  ConstantsInRange →
  AddReturnsDocumented →
  mlr_validate env aMessage m = MlrProceed value effective →
  effective ≠ 0 →
  ∃ m' st fl notification,
    HandleMulticastListenerRegistration env aMessage aMessageInfo m
    = Ok (m', MlrResponse st fl :: notification)
    ∧ mMulticastListenersTable m'
      = (AddEach (mlr_expireTime env effective) (RequestAddresses value)
           (mMulticastListenersTable m)).2
    ∧ fl = failed (mlr_outcomes env aMessage m)
    ∧ fl `sublist_of` RequestAddresses value
    ∧ (st = kMlrSuccess ↔ fl = [])
    ∧ (st = kMlrSuccess ∨ st = kMlrInvalid ∨ st = kMlrNoResources)
    ∧ fl ++ succeeded (mlr_outcomes env aMessage m)
      ≡ₚ RequestAddresses value.
Proof.
  intros Hconst Hdoc Hv Hne.
  pose proof (HandleMulticastListenerRegistration_add env aMessage
                aMessageInfo m value effective Hconst Hdoc Hv Hne) as Hrun.
  cbv zeta in Hrun.
  rewrite (mlr_outcomes_add _ _ _ _ _ Hv Hne).
  pose proof (AddEach_addresses (mlr_expireTime env effective)
                (RequestAddresses value) (mMulticastListenersTable m))
    as Haddrs.
  pose proof (AddEach_documented (mlr_expireTime env effective)
                (RequestAddresses value) (mMulticastListenersTable m) Hdoc)
    as Hdocs.
  destruct (AddEach (mlr_expireTime env effective) (RequestAddresses value)
              (mMulticastListenersTable m)) as [rs t'].
  cbn [fst snd] in *.
  eexists _, _, _, _. split; [exact Hrun|].
  split; [reflexivity|]. split; [reflexivity|]. split.
  { rewrite <- Haddrs. unfold failed. apply fmap_sublist, sublist_filter. }
  destruct (merged_status_and_failed rs Hdocs) as [[Hf Hs]|[Hf Hs]].
  - rewrite Hf, Hs. split; [done|]. split; [auto|].
    rewrite <- Haddrs, <- Hf. apply failed_succeeded_partition.
  - split; [|split].
    + split; [|contradiction]. intros Hsucc.
      destruct Hs as [Hs|Hs]; rewrite Hs in Hsucc; discriminate.
    + destruct Hs as [->| ->]; auto.
    + rewrite <- Haddrs. apply failed_succeeded_partition.
Qed.

(** ** The timeout of a request *)


(** X6.  A request with a matching Commissioner Session ID TLV and a
    Timeout TLV of zero removes each requested address, in the order of
    the request; the zero is not raised to the minimum timeout; the
    response is [kMlrSuccess] with no address list, and nothing is sent on
    the backbone. *)
Theorem mlr_zero_timeout_removes env aMessage aMessageInfo m id value :
  ConstantsInRange →
  IsConfirmablePostRequest aMessage = true →
  mMlrResponseIsSpecified m = false →
  IsPrimary env = true →
  tlvCommissionerSessionId aMessage = Some id →
  GetCommissionerSessionId env = Some id →
  tlvTimeout aMessage = Some 0 →
  tlvIPv6Addresses aMessage = Some value →
  Z.of_nat (length value) mod sizeof_Address = 0 →
  Z.of_nat (length value) / sizeof_Address <= kIPv6AddressesNumMax →
  HandleMulticastListenerRegistration env aMessage aMessageInfo m
  = Ok (set_mMulticastListenersTable
          (RemoveEach (RequestAddresses value) (mMulticastListenersTable m)) m,
        [MlrResponse kMlrSuccess []]).
Proof.
  intros Hconst Hconf Hhook Hprim Hsid Hsession Ht Hvalue Hmod Hcount.
  apply HandleMulticastListenerRegistration_remove; [exact Hconst|].
  unfold mlr_validate.
  rewrite Hconf, Hhook, Hprim, Hsid, Hsession, Ht, Hvalue, Hmod.
  rewrite bool_decide_eq_true_2 by reflexivity.
  rewrite (proj2 (Z.leb_le _ _) Hcount). reflexivity.
Qed.

(** X7.  A Commissioner Session ID TLV that does not match the session of
    the commissioning data is answered with [kMlrGeneralFailure] before
    the address list is looked at: whatever the rest of the message, one
    response is sent and the manager is left as it was. *)
Theorem mlr_session_mismatch_is_general_failure env aMessage aMessageInfo m :
  IsConfirmablePostRequest aMessage = true →
  mMlrResponseIsSpecified m = false →
  IsPrimary env = true →
  session_mismatch env aMessage →
  HandleMulticastListenerRegistration env aMessage aMessageInfo m
  = Ok (m, [MlrResponse kMlrGeneralFailure []]).
Proof.
  intros Hconf Hhook Hprim (id & Hsid & Hne).
  rewrite (HandleMulticastListenerRegistration_exit _ _ _ _
             OT_ERROR_NONE kMlrGeneralFailure m); [reflexivity|].
  unfold mlr_validate. rewrite Hconf, Hhook, Hprim, Hsid.
  rewrite bool_decide_eq_false_2 by exact Hne. reflexivity.
Qed.

(** ** An empty address list *)

(** X8.  An IPv6 Addresses TLV of length zero passes the validation: the
    loop is not entered, the response is [kMlrSuccess] with no address
    list, nothing is sent on the backbone and the manager is left as it
    was. *)
Theorem mlr_empty_address_list env aMessage aMessageInfo m :
  0 <= kIPv6AddressesNumMax →
  IsConfirmablePostRequest aMessage = true →
  mMlrResponseIsSpecified m = false →
  IsPrimary env = true →
  tlvCommissionerSessionId aMessage = None →
  tlvIPv6Addresses aMessage = Some [] →
  HandleMulticastListenerRegistration env aMessage aMessageInfo m
  = Ok (m, [MlrResponse kMlrSuccess []]).
Proof.
  intros Hmax Hconf Hhook Hprim Hsid Hvalue.
  unfold HandleMulticastListenerRegistration, mlr_body.
  rewrite (mlr_validate_default env aMessage m [] Hconf Hhook Hprim Hsid
             Hvalue eq_refl Hmax).
  destruct m. reflexivity.
Qed.

(** ** The pre-armed MLR response *)

Lemma mlr_validate_with_status env aMessage m st :
  mMlrResponseIsSpecified m = false →
  mlr_validate env aMessage (with_mMlrResponseStatus st m)
  = match mlr_validate env aMessage m with
    | MlrExit e st' m' => MlrExit e st' (with_mMlrResponseStatus st m')
    | MlrProceed value effective => MlrProceed value effective
    end.
Proof.
  intros Hhook. unfold mlr_validate.
  cbn [with_mMlrResponseStatus mMlrResponseIsSpecified]. rewrite Hhook.
  repeat (case_match; simplify_eq; try reflexivity).
Qed.

Lemma HandleMulticastListenerRegistration_with_status env aMessage
  aMessageInfo m st :
  mMlrResponseIsSpecified m = false →
  HandleMulticastListenerRegistration env aMessage aMessageInfo
    (with_mMlrResponseStatus st m)
  = match HandleMulticastListenerRegistration env aMessage aMessageInfo m with
    | Ok (m', sent) => Ok (with_mMlrResponseStatus st m', sent)
    | Fail f => Fail f
    end.
Proof.
  intros Hhook. unfold HandleMulticastListenerRegistration, mlr_body.
  rewrite (mlr_validate_with_status _ _ _ _ Hhook).
  destruct (mlr_validate env aMessage m) as [e st' m'|value effective].
  - cbn [mbind Result_bind].
    repeat match goal with
           | |- context [mbind _ ?r] =>
               destruct r; cbn [mbind Result_bind]; try reflexivity
           end.
  - change (mlr_loop_init (with_mMlrResponseStatus st m))
      with (mlr_loop_init m).
    destruct (mlr_loop _ _ _ _ _ _ _) as [s|]; [|reflexivity].
    cbn [mbind Result_bind].
    repeat match goal with
           | |- context [mbind _ ?r] =>
               destruct r; cbn [mbind Result_bind]; try reflexivity
           end.
Qed.

(** X9.  A response pre-armed with
    [ConfigNextMulticastListenerRegistrationResponse] is used once: the
    next confirmable request is answered with the stored status and no
    address list, whatever the role of the router and the content of the
    request, and no table is touched; a request that is not a confirmable
    POST does not use it up; and after it is used the handler treats
    every request as it did before the arming. *)
Theorem mlr_prearmed_response_is_used_once env aMessage aMessageInfo m st :
  mMlrResponseIsSpecified m = false →
  (IsConfirmablePostRequest aMessage = true →
   HandleMulticastListenerRegistration env aMessage aMessageInfo
     (ConfigNextMulticastListenerRegistrationResponse st m)
   = Ok (with_mMlrResponseStatus st m, [MlrResponse st []]))
  ∧ (IsConfirmablePostRequest aMessage = false →
     HandleMulticastListenerRegistration env aMessage aMessageInfo
       (ConfigNextMulticastListenerRegistrationResponse st m)
     = Ok (ConfigNextMulticastListenerRegistrationResponse st m, []))
  ∧ (∀ env' aMessage' aMessageInfo',
       HandleMulticastListenerRegistration env' aMessage' aMessageInfo'
         (with_mMlrResponseStatus st m)
       = match HandleMulticastListenerRegistration env' aMessage'
                 aMessageInfo' m with
         | Ok (m', sent) => Ok (with_mMlrResponseStatus st m', sent)
         | Fail f => Fail f
         end).
Proof.
  intros Hhook. split; [|split].
  - intros Hconf.
    rewrite (HandleMulticastListenerRegistration_exit _ _ _ _
               OT_ERROR_NONE st (with_mMlrResponseStatus st m));
      [reflexivity|].
    unfold mlr_validate. rewrite Hconf. cbn. f_equal.
    destruct m. cbn in *. subst. reflexivity.
  - intros Hconf.
    rewrite (HandleMulticastListenerRegistration_exit _ _ _ _
               OT_ERROR_PARSE kMlrSuccess
               (ConfigNextMulticastListenerRegistrationResponse st m));
      [reflexivity|].
    unfold mlr_validate. rewrite Hconf. reflexivity.
  - intros env' aMessage' aMessageInfo'.
    apply HandleMulticastListenerRegistration_with_status. exact Hhook.
Qed.

(** ** DUA registration *)


(** X11.  Handling a DUA request changes nothing of the manager but the
    proxy table and the flag of the pre-armed DUA response: the multicast
    listeners table, the timer, the registration of the two resources,
    the backbone agent, the resolver, the stored test statuses and the
    MLR hook are as before. *)
Theorem dua_request_footprint env aMessage aMessageInfo m m' sent :
  HandleDuaRegistration env aMessage aMessageInfo m = Ok (m', sent) →
  mMulticastListenersTable m' = mMulticastListenersTable m
  ∧ mTimer m' = mTimer m
  ∧ mMulticastListenerRegistration m' = mMulticastListenerRegistration m
  ∧ mDuaRegistration m' = mDuaRegistration m
  ∧ mBackboneTmfAgent m' = mBackboneTmfAgent m
  ∧ mAddressResolver m' = mAddressResolver m
  ∧ mMlrResponseIsSpecified m' = mMlrResponseIsSpecified m
  ∧ mMlrResponseStatus m' = mMlrResponseStatus m
  ∧ mDuaResponseStatus m' = mDuaResponseStatus m
  ∧ mDuaResponseTargetMlIid m' = mDuaResponseTargetMlIid m.
Proof.
  unfold HandleDuaRegistration, dua_body. intros Hrun.
  repeat case_match; simplify_eq; repeat split.
Qed.

(** X12.  A well-formed DUA request at the primary router, with no
    response pre-armed: a target outside the domain prefix is answered
    with [kDuaInvalid] and the proxy table is not called; otherwise the
    target's identifier is registered with the Mesh-Local EID, the
    locator of the source and the Last Transaction Time TLV if there is
    one, the proxy table becomes the one [Register] leaves, and the status
    is [kDuaSuccess], [kDuaDuplicate] or [kDuaNoResources] for the
    results [OT_ERROR_NONE], [OT_ERROR_DUPLICATED] or [OT_ERROR_NO_BUFS],
    and [kDuaGeneralFailure] for any other. *)
Theorem dua_register_outcome env aMessage aMessageInfo m target ml :
  IsRoutingLocator (GetIid (GetPeerAddr aMessageInfo)) = true →
  IsConfirmablePostRequest aMessage = true →
  tlvTarget aMessage = Some target →
  tlvMeshLocalEid aMessage = Some ml →
  mDuaResponseIsSpecified m = false →
  IsPrimary env = true →
  (IsDomainUnicast env target = false →
   HandleDuaRegistration env aMessage aMessageInfo m
   = Ok (m, [DuaResponse target kDuaInvalid]))
  ∧ (IsDomainUnicast env target = true →
     ∀ e t',
       NdProxyTable_Register (GetIid target) ml
         (GetLocator (GetIid (GetPeerAddr aMessageInfo)))
         (tlvLastTransactionTime aMessage) (mNdProxyTable m) = (e, t') →
       ∃ st,
         HandleDuaRegistration env aMessage aMessageInfo m
         = Ok (set_mNdProxyTable t' m, [DuaResponse target st])
         ∧ (e = OT_ERROR_NONE → st = kDuaSuccess)
         ∧ (e = OT_ERROR_DUPLICATED → st = kDuaDuplicate)
         ∧ (e = OT_ERROR_NO_BUFS → st = kDuaNoResources)
         ∧ (e ≠ OT_ERROR_NONE → e ≠ OT_ERROR_DUPLICATED →
            e ≠ OT_ERROR_NO_BUFS → st = kDuaGeneralFailure)).
Proof.
  intros Hrloc Hconf Htarget Hml Hhook Hprim.
  unfold HandleDuaRegistration, dua_body.
  rewrite Hrloc, Hconf, Htarget, Hml, Hhook, Hprim. cbn [negb andb].
  split.
  - intros ->. cbn. rewrite Z.eqb_refl. reflexivity.
  - intros -> e t' ->. cbn. rewrite Z.eqb_refl. cbn.
    eexists. split; [reflexivity|].
    destruct e; repeat split; try discriminate; try reflexivity;
      intros; contradiction.
Qed.

(** X13.  A DUA response pre-armed for the request's Mesh-Local EID, or for
    any (null pointer, the stored identifier being cleared), is used by
    the next well-formed DUA request whatever the role of the router: a
    stored status at or above [kCodeResponseMin] is sent as the code of an
    empty acknowledgment, a smaller one as the status of a response that
    echoes the target; the hook is disarmed and the proxy table is not
    called. *)
Theorem dua_prearmed_response env aMessage aMessageInfo m target ml aMlIid st :
  IsRoutingLocator (GetIid (GetPeerAddr aMessageInfo)) = true →
  IsConfirmablePostRequest aMessage = true →
  tlvTarget aMessage = Some target →
  tlvMeshLocalEid aMessage = Some ml →
  kCodeEmpty < kCodeResponseMin →
  aMlIid = Some ml ∨ (aMlIid = None ∧ IsUnspecified (replicate 8 x00) = true) →
  (kCodeResponseMin <= st →
   HandleDuaRegistration env aMessage aMessageInfo
     (ConfigNextDuaRegistrationResponse aMlIid st m)
   = Ok (set_mDuaResponseIsSpecified false
           (ConfigNextDuaRegistrationResponse aMlIid st m),
         [EmptyAck st]))
  ∧ (st < kCodeResponseMin →
     HandleDuaRegistration env aMessage aMessageInfo
       (ConfigNextDuaRegistrationResponse aMlIid st m)
     = Ok (set_mDuaResponseIsSpecified false
             (ConfigNextDuaRegistrationResponse aMlIid st m),
           [DuaResponse target (kDuaRawStatus st)])).
Proof.
  intros Hrloc Hconf Htarget Hml Hcodes Hmatch.
  unfold HandleDuaRegistration, dua_body.
  rewrite Hrloc, Hconf, Htarget, Hml.
  cbn [negb ConfigNextDuaRegistrationResponse mDuaResponseIsSpecified
       mDuaResponseTargetMlIid mDuaResponseStatus andb].
  assert (Hhit :
    IsUnspecified match aMlIid with
                  | Some iid => iid
                  | None => replicate 8 x00
                  end
    || bool_decide (match aMlIid with
                    | Some iid => iid
                    | None => replicate 8 x00
                    end = ml) = true).
  { destruct Hmatch as [->|[-> Hzero]].
    - rewrite bool_decide_eq_true_2 by reflexivity. apply orb_true_r.
    - rewrite Hzero. reflexivity. }
  rewrite Hhit. split; intros Hst.
  - rewrite (proj2 (Z.leb_le _ _) Hst).
    cbn [duaError duaRespCoapCode duaTarget duaStatus].
    destruct (decide (OT_ERROR_NONE = OT_ERROR_NONE)); [|done].
    rewrite (proj2 (Z.eqb_neq st kCodeEmpty)) by lia. reflexivity.
  - rewrite (proj2 (Z.leb_gt _ _) Hst).
    cbn [duaError duaRespCoapCode duaTarget duaStatus].
    destruct (decide (OT_ERROR_NONE = OT_ERROR_NONE)); [|done].
    rewrite Z.eqb_refl. reflexivity.
Qed.

(** X14.  A DUA response pre-armed for another Mesh-Local EID waits: a
    well-formed request with a different Mesh-Local EID is handled as if
    nothing were armed (same messages sent, same proxy table left), and
    the hook is still armed afterwards. *)
Theorem dua_prearmed_response_waits env aMessage aMessageInfo m target ml
  other st :
  IsRoutingLocator (GetIid (GetPeerAddr aMessageInfo)) = true →
  IsConfirmablePostRequest aMessage = true →
  tlvTarget aMessage = Some target →
  tlvMeshLocalEid aMessage = Some ml →
  mDuaResponseIsSpecified m = false →
  other ≠ ml →
  IsUnspecified other = false →
  ∃ m1 m2 sent,
    HandleDuaRegistration env aMessage aMessageInfo
      (ConfigNextDuaRegistrationResponse (Some other) st m) = Ok (m1, sent)
    ∧ HandleDuaRegistration env aMessage aMessageInfo m = Ok (m2, sent)
    ∧ mNdProxyTable m1 = mNdProxyTable m2
    ∧ mDuaResponseIsSpecified m1 = true
    ∧ mDuaResponseTargetMlIid m1 = other
    ∧ mDuaResponseStatus m1 = st.
Proof.
  intros Hrloc Hconf Htarget Hml Hhook Hother Hspec.
  unfold HandleDuaRegistration, dua_body.
  rewrite Hrloc, Hconf, Htarget, Hml, Hhook.
  cbn [negb ConfigNextDuaRegistrationResponse mDuaResponseIsSpecified
       mDuaResponseTargetMlIid mDuaResponseStatus mNdProxyTable andb].
  rewrite Hspec, bool_decide_eq_false_2 by exact Hother.
  cbn [orb].
  destruct (IsPrimary env); cbn [negb];
    [|cbn; rewrite Z.eqb_refl; eexists _, _, _; repeat split].
  destruct (IsDomainUnicast env target); cbn [negb];
    [|cbn; rewrite Z.eqb_refl; eexists _, _, _; repeat split].
  destruct (NdProxyTable_Register _ _ _ _ _) as [e t'].
  cbn. rewrite Z.eqb_refl. eexists _, _, _. repeat split.
Qed.

(** ** Registration, then the forward decision *)

(** X15.  Once a DUA request has registered its target with success, and
    provided the proxy table reports as registered what [Register]
    accepted, the forward decision for that target is negative: the
    router answers for the address itself. *)
Theorem registered_dua_is_not_forwarded env env' aMessage aMessageInfo m
  target ml t' :
  (∀ iid ml' rloc16 time t1 t2,
     NdProxyTable_Register iid ml' rloc16 time t1 = (OT_ERROR_NONE, t2) →
     NdProxyTable_IsRegistered iid t2 = true) →
  IsRoutingLocator (GetIid (GetPeerAddr aMessageInfo)) = true →
  IsConfirmablePostRequest aMessage = true →
  tlvTarget aMessage = Some target →
  tlvMeshLocalEid aMessage = Some ml →
  mDuaResponseIsSpecified m = false →
  IsPrimary env = true →
  IsDomainUnicast env target = true →
  NdProxyTable_Register (GetIid target) ml
    (GetLocator (GetIid (GetPeerAddr aMessageInfo)))
    (tlvLastTransactionTime aMessage) (mNdProxyTable m)
  = (OT_ERROR_NONE, t') →
  ∃ m',
    HandleDuaRegistration env aMessage aMessageInfo m
    = Ok (m', [DuaResponse target kDuaSuccess])
    ∧ (ShouldForwardDuaToBackbone env' target m').1 = false.
Proof.
  intros Hlaw Hrloc Hconf Htarget Hml Hhook Hprim Hdom Hreg.
  destruct (dua_register_outcome env aMessage aMessageInfo m target ml
              Hrloc Hconf Htarget Hml Hhook Hprim) as [_ Hok].
  destruct (Hok Hdom _ _ Hreg) as (st & Hrun & Hst & _).
  rewrite (Hst eq_refl) in Hrun.
  eexists. split; [exact Hrun|].
  unfold ShouldForwardDuaToBackbone.
  destruct (IsPrimary env'); [|reflexivity].
  destruct (IsDomainUnicast env' target); [|reflexivity].
  cbn [negb set_mNdProxyTable mNdProxyTable].
  rewrite (Hlaw _ _ _ _ _ _ Hreg). reflexivity.
Qed.

(** ** Lifecycle *)

Lemma manager_step_consistent m op m' :
  lifecycle_consistent m → manager_step m op m' → lifecycle_consistent m'.
Proof.
  intros [Hres Htimer] Hstep. unfold lifecycle_consistent.
  destruct Hstep as [env aEvents m|env m Hrun|env msg info m m' sent Hrun
                    |env msg info m m' sent Hrun|st m|iid st m].
  - unfold HandleNotifierEvents.
    destruct (Contains aEvents kEventThreadBackboneRouterStateChanged);
      [|split; assumption].
    destruct (decide (GetState env = OT_BACKBONE_ROUTER_STATE_DISABLED));
      cbn; [split; reflexivity|].
    split; [reflexivity|].
    destruct (Timer_IsRunning (mTimer m)) eqn:Hr; cbn;
      [exact Hr|reflexivity].
  - cbn. split; [exact Hres|]. rewrite <- Htimer, Hrun. reflexivity.
  - destruct (mlr_request_footprint _ _ _ _ _ _ Hrun)
      as (_ & -> & -> & -> & _). split; assumption.
  - destruct (dua_request_footprint _ _ _ _ _ _ Hrun)
      as (_ & -> & -> & -> & _). split; assumption.
  - cbn. split; assumption.
  - cbn. split; assumption.
Qed.

(** X16.  Through any sequence of notifier events, timer expirations,
    MLR and DUA requests and armings of the test hooks, the two resources
    stay registered together and exactly while the expiry timer runs. *)
Theorem lifecycle_consistent_is_invariant m ops m' :
  lifecycle_consistent m →
  manager_steps m ops m' →
  lifecycle_consistent m'.
Proof.
  intros Hinv Hsteps. induction Hsteps as [m|m op m1 ops m2 Hstep _ IH];
    [exact Hinv|].
  apply IH. apply (manager_step_consistent m op m1 Hinv Hstep).
Qed.

(** X17.  When the state-changed event is handled while the Backbone
    Router is not disabled, both resources are registered and the timer
    runs afterwards; a timer that was running keeps its deadline, a
    stopped one is started for [kTimerInterval]; and neither table is
    touched. *)
Theorem enable_registers_and_keeps_deadline env aEvents m :
  Contains aEvents kEventThreadBackboneRouterStateChanged = true →
  GetState env ≠ OT_BACKBONE_ROUTER_STATE_DISABLED →
  mMulticastListenerRegistration (HandleNotifierEvents env aEvents m) = true
  ∧ mDuaRegistration (HandleNotifierEvents env aEvents m) = true
  ∧ Timer_IsRunning (mTimer (HandleNotifierEvents env aEvents m)) = true
  ∧ (Timer_IsRunning (mTimer m) = true →
     mTimer (HandleNotifierEvents env aEvents m) = mTimer m)
  ∧ (Timer_IsRunning (mTimer m) = false →
     mTimer (HandleNotifierEvents env aEvents m)
     = Some (uint32 (GetNow env + kTimerInterval)))
  ∧ mMulticastListenersTable (HandleNotifierEvents env aEvents m)
    = mMulticastListenersTable m
  ∧ mNdProxyTable (HandleNotifierEvents env aEvents m) = mNdProxyTable m.
Proof.
  intros Hev Hstate. unfold HandleNotifierEvents. rewrite Hev.
  destruct (decide (GetState env = OT_BACKBONE_ROUTER_STATE_DISABLED));
    [contradiction|].
  cbn. destruct (Timer_IsRunning (mTimer m)) eqn:Hr; cbn;
    repeat split; try assumption; try discriminate; reflexivity.
Qed.

End Further.

(** * Properties of the Operational Dataset information *)

Section DatasetInfo.
Variables (NetworkName NameData : Type).
Variable NetworkName_Set : NameData -> NetworkName -> NetworkName.

#[local] Abbreviation Info := (Dataset.Info NetworkName).
#[local] Abbreviation Call := (Dataset.Call NameData).
#[local] Abbreviation call := (Dataset.call NetworkName NameData NetworkName_Set).
#[local] Abbreviation calls := (Dataset.calls NetworkName NameData NetworkName_Set).
#[local] Abbreviation written := (Dataset.written NetworkName NameData NetworkName_Set).

Lemma dataset_call_presence (c : Dataset.Component) (k : Call) (i : Info) :
  Dataset.IsPresent NetworkName c (call k i)
  = Dataset.IsPresent NetworkName c i
    || bool_decide (c = Dataset.component_of NameData k).
Proof.
  destruct k, c; cbn; rewrite ?orb_true_r, ?orb_false_r; reflexivity.
Qed.

Lemma dataset_call_value (c : Dataset.Component) (k : Call) (i : Info) :
  Dataset.Get NetworkName c (call k i)
  = if decide (c = Dataset.component_of NameData k)
    then written k (Dataset.Get NetworkName c i)
    else Dataset.Get NetworkName c i.
Proof. destruct k, c; reflexivity. Qed.

(** X18.  After any sequence of calls of the setters of [Dataset::Info]
    (with [UpdateMasterKey]), a component is present exactly if it was
    present before or one of the calls was for it: a setter marks its own
    component and no other, and nothing unmarks a component. *)
Theorem dataset_presence_after_calls (c : Dataset.Component) (ks : list Call)
  (i : Info) :
  Dataset.IsPresent NetworkName c (calls ks i)
  = Dataset.IsPresent NetworkName c i
    || bool_decide (c ∈ Dataset.component_of NameData <$> ks).
Proof.
  revert i. induction ks as [|k ks IH]; intros i.
  - cbn. rewrite bool_decide_eq_false_2 by (intros Hin; inversion Hin).
    rewrite orb_false_r. reflexivity.
  - change (calls (k :: ks) i) with (calls ks (call k i)).
    rewrite IH, dataset_call_presence, <- orb_assoc. f_equal.
    rewrite fmap_cons.
    destruct (decide (c = Dataset.component_of NameData k)) as [Heq|Hne].
    + rewrite (bool_decide_eq_true_2 _ Heq). cbn.
      symmetry. apply bool_decide_eq_true_2. rewrite Heq. left.
    + rewrite (bool_decide_eq_false_2 _ Hne). cbn.
      apply bool_decide_ext. rewrite elem_of_cons. tauto.
Qed.

(** X19.  The value a getter of [Dataset::Info] returns after any sequence
    of setter calls is determined by the value before and the calls for
    that component alone, the last one winning: calls for other
    components do not touch it. *)
Theorem dataset_components_are_independent (c : Dataset.Component)
  (ks : list Call) (i : Info) :
  Dataset.Get NetworkName c (calls ks i)
  = foldl (fun v k =>
             if decide (c = Dataset.component_of NameData k)
             then written k v else v)
      (Dataset.Get NetworkName c i) ks.
Proof.
  revert i. induction ks as [|k ks IH]; intros i; [reflexivity|].
  change (calls (k :: ks) i) with (calls ks (call k i)).
  rewrite IH, dataset_call_value. reflexivity.
Qed.

End DatasetInfo.

(** * The further properties on concrete requests *)

Lemma Reference_Register_registered iid ml rloc16 time
  (t1 t2 : Reference.ProxyTable) :
  Reference.Register iid ml rloc16 time t1 = (OT_ERROR_NONE, t2) →
  Reference.IsRegistered iid t2 = true.
Proof.
  unfold Reference.Register, Reference.IsRegistered. intros Hreg.
  destruct (find _ (Reference.proxies t1)) as [p|] eqn:Hfind.
  - destruct (bool_decide (Reference.meshLocalIid p = ml)); [|discriminate].
    injection Hreg as <-. cbn. apply bool_decide_eq_true_2.
    apply find_some in Hfind as [Hin Hp].
    apply bool_decide_eq_true_1 in Hp.
    apply list_elem_of_In in Hin.
    apply list_elem_of_fmap.
    eexists. split; [|apply list_elem_of_fmap; eexists; split;
                       [reflexivity|exact Hin]].
    destruct (decide (Reference.targetIid p = iid)); [reflexivity|done].
  - destruct (bool_decide _); [|discriminate].
    injection Hreg as <-. cbn. apply bool_decide_eq_true_2.
    rewrite fmap_app. apply elem_of_app. right. cbn.
    apply list_elem_of_here.
Qed.

Lemma mlr_request_footprint_witness :
  mNdProxyTable
    (Reference.manager 4
       [(Reference.group x01, 3605000); (Reference.group x02, 3605000)] [])
  = mNdProxyTable (Reference.manager 4 [] []).
Proof.
  apply (mlr_request_footprint (Reference.env true)
           (Reference.mlr_req None None
              (Some (Reference.group x01 ++ Reference.group x02)))
           (Reference.from (Reference.rloc x58 x01))
           (Reference.manager 4 [] []) _ _ two_groups_run).
Defined.



Lemma mlr_response_lists_failed_addresses_witness :
  ∃ m' st notification,
    HandleMulticastListenerRegistration (Reference.env true)
      (Reference.mlr_req None None
         (Some (Reference.group x01 ++ Reference.unicast x09
                ++ Reference.group x02 ++ Reference.group x03
                ++ Reference.group x04)))
      (Reference.from (Reference.rloc x58 x01)) (Reference.manager 2 [] [])
    = Ok (m',
          MlrResponse st
            [Reference.unicast x09; Reference.group x03; Reference.group x04]
          :: notification)
    ∧ st ≠ kMlrSuccess.
Proof.
  destruct (mlr_response_lists_failed_addresses (Reference.env true)
              (Reference.mlr_req None None
                 (Some (Reference.group x01 ++ Reference.unicast x09
                        ++ Reference.group x02 ++ Reference.group x03
                        ++ Reference.group x04)))
              (Reference.from (Reference.rloc x58 x01))
              (Reference.manager 2 [] [])
              (Reference.group x01 ++ Reference.unicast x09
               ++ Reference.group x02 ++ Reference.group x03
               ++ Reference.group x04)
              3600
              Reference_constants_in_range Reference_Add_documented
              eq_refl ltac:(discriminate))
    as (m' & st & fl & ntf & Hrun & _ & Hfl & _ & Hiff & _).
  vm_compute in Hfl. subst fl.
  exists m', st, ntf. split; [exact Hrun|].
  intros Hst. apply Hiff in Hst. discriminate Hst.
Defined.


Lemma mlr_zero_timeout_removes_witness :
  HandleMulticastListenerRegistration (Reference.env true)
    (Reference.mlr_req (Some 7) (Some 0)
       (Some (Reference.group x01 ++ Reference.group x02)))
    (Reference.from (Reference.rloc x58 x01))
    (Reference.manager 4
       [(Reference.group x01, 9000); (Reference.group x03, 9000)] [])
  = Ok (Reference.manager 4 [(Reference.group x03, 9000)] [],
        [MlrResponse kMlrSuccess []]).
Proof.
  rewrite (mlr_zero_timeout_removes (Reference.env true)
             (Reference.mlr_req (Some 7) (Some 0)
                (Some (Reference.group x01 ++ Reference.group x02)))
             (Reference.from (Reference.rloc x58 x01))
             (Reference.manager 4
                [(Reference.group x01, 9000); (Reference.group x03, 9000)] [])
             7 (Reference.group x01 ++ Reference.group x02)
             Reference_constants_in_range
             eq_refl eq_refl eq_refl eq_refl eq_refl eq_refl eq_refl eq_refl
             ltac:(vm_compute; discriminate)).
  vm_compute. reflexivity.
Defined.

Lemma mlr_session_mismatch_is_general_failure_witness :
  HandleMulticastListenerRegistration (Reference.env true)
    (Reference.mlr_req (Some 9) (Some 600) None)
    (Reference.from (Reference.rloc x58 x01)) (Reference.manager 4 [] [])
  = Ok (Reference.manager 4 [] [], [MlrResponse kMlrGeneralFailure []]).
Proof.
  apply (mlr_session_mismatch_is_general_failure (Reference.env true)
           (Reference.mlr_req (Some 9) (Some 600) None)
           (Reference.from (Reference.rloc x58 x01))
           (Reference.manager 4 [] []) eq_refl eq_refl eq_refl).
  exists 9. split; [reflexivity|discriminate].
Defined.

Lemma mlr_empty_address_list_witness :
  HandleMulticastListenerRegistration (Reference.env true)
    (Reference.mlr_req None None (Some []))
    (Reference.from (Reference.rloc x58 x01))
    (Reference.manager 4 [(Reference.group x01, 9000)] [])
  = Ok (Reference.manager 4 [(Reference.group x01, 9000)] [],
        [MlrResponse kMlrSuccess []]).
Proof.
  apply (mlr_empty_address_list (Reference.env true)
           (Reference.mlr_req None None (Some []))
           (Reference.from (Reference.rloc x58 x01))
           (Reference.manager 4 [(Reference.group x01, 9000)] [])
           ltac:(vm_compute; discriminate)
           eq_refl eq_refl eq_refl eq_refl eq_refl).
Defined.

(** A secondary router armed with [kMlrNoResources] answers with it. *)
Lemma mlr_prearmed_response_is_used_once_witness :
  HandleMulticastListenerRegistration (Reference.env false)
    (Reference.mlr_req None None (Some (Reference.group x01)))
    (Reference.from (Reference.rloc x58 x01))
    (ConfigNextMulticastListenerRegistrationResponse kMlrNoResources
       (Reference.manager 4 [] []))
  = Ok (with_mMlrResponseStatus kMlrNoResources (Reference.manager 4 [] []),
        [MlrResponse kMlrNoResources []]).
Proof.
  destruct (mlr_prearmed_response_is_used_once (Reference.env false)
              (Reference.mlr_req None None (Some (Reference.group x01)))
              (Reference.from (Reference.rloc x58 x01))
              (Reference.manager 4 [] []) kMlrNoResources eq_refl)
    as [Hused _].
  apply Hused. reflexivity.
Defined.

(** A DUA registration at the primary router, accepted. *)
Lemma dua_registration_run :
  HandleDuaRegistration (Reference.env true)
    (Reference.dua_req (Reference.unicast x01) [x01])
    (Reference.from (Reference.rloc x58 x01)) (Reference.manager 4 [] [])
  = Ok (Reference.manager 4 []
          [{| Reference.targetIid := Reference.Iid (Reference.unicast x01);
              Reference.meshLocalIid := [x01];
              Reference.ownerLocator := 0x5801;
              Reference.lastTransactionTime := None |}],
        [DuaResponse (Reference.unicast x01) kDuaSuccess]).
Proof. vm_compute. reflexivity. Qed.

Lemma dua_request_footprint_witness :
  mMulticastListenersTable
    (Reference.manager 4 []
       [{| Reference.targetIid := Reference.Iid (Reference.unicast x01);
           Reference.meshLocalIid := [x01];
           Reference.ownerLocator := 0x5801;
           Reference.lastTransactionTime := None |}])
  = mMulticastListenersTable (Reference.manager 4 [] []).
Proof.
  apply (dua_request_footprint (Reference.env true)
           (Reference.dua_req (Reference.unicast x01) [x01])
           (Reference.from (Reference.rloc x58 x01))
           (Reference.manager 4 [] []) _ _ dua_registration_run).
Defined.

(** The same target with another Mesh-Local EID is a duplicate; a target
    outside the domain is invalid. *)
Lemma dua_register_outcome_witness :
  HandleDuaRegistration (Reference.env true)
    (Reference.dua_req (Reference.unicast x01) [x02])
    (Reference.from (Reference.rloc x58 x01))
    (Reference.manager 4 []
       [{| Reference.targetIid := Reference.Iid (Reference.unicast x01);
           Reference.meshLocalIid := [x01];
           Reference.ownerLocator := 0x5801;
           Reference.lastTransactionTime := None |}])
  = Ok (Reference.manager 4 []
          [{| Reference.targetIid := Reference.Iid (Reference.unicast x01);
              Reference.meshLocalIid := [x01];
              Reference.ownerLocator := 0x5801;
              Reference.lastTransactionTime := None |}],
        [DuaResponse (Reference.unicast x01) kDuaDuplicate])
  ∧ HandleDuaRegistration (Reference.env true)
      (Reference.dua_req (Reference.group x01) [x02])
      (Reference.from (Reference.rloc x58 x01)) (Reference.manager 4 [] [])
    = Ok (Reference.manager 4 [] [],
          [DuaResponse (Reference.group x01) kDuaInvalid]).
Proof.
  split.
  - destruct (dua_register_outcome (Reference.env true)
                (Reference.dua_req (Reference.unicast x01) [x02])
                (Reference.from (Reference.rloc x58 x01))
                (Reference.manager 4 []
                   [{| Reference.targetIid :=
                         Reference.Iid (Reference.unicast x01);
                       Reference.meshLocalIid := [x01];
                       Reference.ownerLocator := 0x5801;
                       Reference.lastTransactionTime := None |}])
                (Reference.unicast x01) [x02]
                eq_refl eq_refl eq_refl eq_refl eq_refl eq_refl)
      as [_ Hreg].
    destruct (Hreg eq_refl _ _ eq_refl) as (st & Hrun & _ & Hdup & _).
    rewrite Hrun, (Hdup eq_refl). reflexivity.
  - destruct (dua_register_outcome (Reference.env true)
                (Reference.dua_req (Reference.group x01) [x02])
                (Reference.from (Reference.rloc x58 x01))
                (Reference.manager 4 [] [])
                (Reference.group x01) [x02]
                eq_refl eq_refl eq_refl eq_refl eq_refl eq_refl)
      as [Hinvalid _].
    apply Hinvalid. reflexivity.
Defined.

(** Armed for any Mesh-Local EID with code 2.04 (68): an empty
    acknowledgment with that code, at a secondary router. *)
Lemma dua_prearmed_response_witness :
  HandleDuaRegistration (Reference.env false)
    (Reference.dua_req (Reference.unicast x01) [x01])
    (Reference.from (Reference.rloc x58 x01))
    (ConfigNextDuaRegistrationResponse None 68 (Reference.manager 4 [] []))
  = Ok (set_mDuaResponseIsSpecified false
          (ConfigNextDuaRegistrationResponse None 68
             (Reference.manager 4 [] [])),
        [EmptyAck 68]).
Proof.
  destruct (dua_prearmed_response (Reference.env false)
              (Reference.dua_req (Reference.unicast x01) [x01])
              (Reference.from (Reference.rloc x58 x01))
              (Reference.manager 4 [] []) (Reference.unicast x01) [x01]
              None 68 eq_refl eq_refl eq_refl eq_refl
              ltac:(vm_compute; reflexivity)
              ltac:(right; split; reflexivity)) as [Hack _].
  apply Hack. vm_compute. discriminate.
Defined.

Lemma dua_prearmed_response_waits_witness :
  ∃ m1 m2 sent,
    HandleDuaRegistration (Reference.env true)
      (Reference.dua_req (Reference.unicast x01) [x01])
      (Reference.from (Reference.rloc x58 x01))
      (ConfigNextDuaRegistrationResponse (Some [x09]) 68
         (Reference.manager 4 [] [])) = Ok (m1, sent)
    ∧ HandleDuaRegistration (Reference.env true)
        (Reference.dua_req (Reference.unicast x01) [x01])
        (Reference.from (Reference.rloc x58 x01)) (Reference.manager 4 [] [])
      = Ok (m2, sent)
    ∧ mDuaResponseIsSpecified m1 = true.
Proof.
  destruct (dua_prearmed_response_waits (Reference.env true)
              (Reference.dua_req (Reference.unicast x01) [x01])
              (Reference.from (Reference.rloc x58 x01))
              (Reference.manager 4 [] []) (Reference.unicast x01) [x01]
              [x09] 68 eq_refl eq_refl eq_refl eq_refl eq_refl
              ltac:(discriminate) eq_refl)
    as (m1 & m2 & sent & Harmed & Hplain & _ & Hstill & _).
  exists m1, m2, sent. repeat split; assumption.
Defined.

Lemma registered_dua_is_not_forwarded_witness :
  ∃ m',
    HandleDuaRegistration (Reference.env true)
      (Reference.dua_req (Reference.unicast x01) [x01])
      (Reference.from (Reference.rloc x58 x01)) (Reference.manager 4 [] [])
    = Ok (m', [DuaResponse (Reference.unicast x01) kDuaSuccess])
    ∧ (ShouldForwardDuaToBackbone (Reference.env true)
         (Reference.unicast x01) m').1 = false.
Proof.
  apply (registered_dua_is_not_forwarded (Reference.env true)
           (Reference.env true)
           (Reference.dua_req (Reference.unicast x01) [x01])
           (Reference.from (Reference.rloc x58 x01))
           (Reference.manager 4 [] []) (Reference.unicast x01) [x01]
           {| Reference.proxyCapacity := 4;
              Reference.proxies :=
                [{| Reference.targetIid :=
                      Reference.Iid (Reference.unicast x01);
                    Reference.meshLocalIid := [x01];
                    Reference.ownerLocator := 0x5801;
                    Reference.lastTransactionTime := None |}] |}
           Reference_Register_registered
           eq_refl eq_refl eq_refl eq_refl eq_refl eq_refl eq_refl eq_refl).
Defined.

(** Disabled, enabled again, then the timer fires. *)
Lemma lifecycle_consistent_is_invariant_witness :
  lifecycle_consistent
    (HandleTimer (Reference.env true)
       (HandleNotifierEvents (Reference.env true)
          [kEventThreadBackboneRouterStateChanged]
          (HandleNotifierEvents Reference.disabled
             [kEventThreadBackboneRouterStateChanged]
             (Reference.manager 4 [] [])))).
Proof.
  apply (lifecycle_consistent_is_invariant (Reference.manager 4 [] [])
           [OpNotify Reference.disabled
              [kEventThreadBackboneRouterStateChanged];
            OpNotify (Reference.env true)
              [kEventThreadBackboneRouterStateChanged];
            OpTimer (Reference.env true)]).
  - split; reflexivity.
  - eapply steps_cons; [apply step_notify|].
    eapply steps_cons; [apply step_notify|].
    eapply steps_cons; [apply step_timer; reflexivity|].
    apply steps_nil.
Defined.

Lemma enable_registers_and_keeps_deadline_witness :
  mTimer
    (HandleNotifierEvents (Reference.env true)
       [kEventThreadBackboneRouterStateChanged] (Reference.manager 4 [] []))
  = Some 6000.
Proof.
  destruct (enable_registers_and_keeps_deadline (Reference.env true)
              [kEventThreadBackboneRouterStateChanged]
              (Reference.manager 4 [] []) eq_refl ltac:(discriminate))
    as (_ & _ & _ & Hkeep & _).
  apply Hkeep. reflexivity.
Defined.
